(** * simple-mcp-server: the tool dispatcher and the SSE transport of server.js

    A shallow embedding of [SimpleMCPServer] (src/server.js): the tool
    registry [getTools], the dispatcher [handleToolCall], the two POST routes
    that wrap it and the GET /sse route with its keep-alive timer.

    The server is JavaScript, so the embedding starts with the part of the
    language the handlers rely on: JSON-shaped values, IEEE-754 binary64
    numbers with [Number::toString], string conversion, the [+] operator,
    property reads, destructuring and [JSON.stringify]. *)

From Stdlib Require Import ZArith List String Ascii Bool Lia.
From Stdlib Require Import Floats.SpecFloat.
Import ListNotations.

Local Open Scope list_scope.
Local Open Scope string_scope.
Local Open Scope Z_scope.

(** ** Text helpers *)

Module Text.

Definition LF : string := String "010"%char EmptyString.
Definition DQUOTE : string := String "034"%char EmptyString.

Definition digit_char (d : Z) : ascii := ascii_of_nat (48 + Z.to_nat d).

Fixpoint digits_fuel (fuel : nat) (n : Z) (acc : string) : string :=
  match fuel with
  | O => acc
  | S fuel' =>
      let acc' := String (digit_char (n mod 10)) acc in
      if n <? 10 then acc' else digits_fuel fuel' (n / 10) acc'
  end.

(** Decimal digits of a non-negative integer, most significant first. *)
Definition decimal (n : Z) : string :=
  digits_fuel (S (Z.to_nat (Z.log2 n))) n "".

Fixpoint repeat_string (n : nat) (s : string) : string :=
  match n with
  | O => ""
  | S n' => s ++ repeat_string n' s
  end.

(** [n] written with at least [width] digits, padded with zeros on the left. *)
Definition pad_left (width : nat) (n : Z) : string :=
  let d := decimal n in
  repeat_string (width - String.length d) "0" ++ d.

Definition take (n : nat) (s : string) : string := substring 0 n s.
Definition drop (n : nat) (s : string) : string :=
  substring n (String.length s - n) s.

Fixpoint join (sep : string) (parts : list string) : string :=
  match parts with
  | [] => ""
  | [p] => p
  | p :: rest => p ++ sep ++ join sep rest
  end.

Definition hex_char (d : Z) : ascii :=
  if d <? 10 then ascii_of_nat (48 + Z.to_nat d)
  else ascii_of_nat (87 + Z.to_nat d).

End Text.

(** ** Numbers: IEEE-754 binary64 *)

Module Number.

Definition t := spec_float.

Definition prec : Z := 53.
Definition emax : Z := 1024.

Definition NaN : t := S754_nan.
Definition zero : t := S754_zero false.

(** The Number value of an integer (rounded to nearest, ties to even). *)
Definition of_Z (n : Z) : t := binary_normalize prec emax n 0 false.

(** [Number::add]. *)
Definition add (x y : t) : t := SFadd prec emax x y.

Definition div (x y : t) : t := SFdiv prec emax x y.

(** *** Number::toString (radix 10)

    For a finite positive [v = m * 2^e] the standard asks for integers
    [n], [k], [s] with [k >= 1], [10^(k-1) <= s < 10^k], [s * 10^(n-k)]
    rounding to [v], and [k] as small as possible; among several [s] the
    one closest to [v].  All comparisons below are exact, on integers. *)

(** [a * 10^p * 2^q] against [b]: both sides are cleared of negative
    powers before they are compared. *)
Definition cmp_scaled (a p q b : Z) : comparison :=
  let lhs := a * 10 ^ Z.max p 0 * 2 ^ Z.max q 0 in
  let rhs := b * 10 ^ Z.max (- p) 0 * 2 ^ Z.max (- q) 0 in
  lhs ?= rhs.

(** Smallest [j >= 1] with [num * 10^j >= den], for [0 < num < den]. *)
Fixpoint first_scale (fuel : nat) (num den j : Z) : Z :=
  match fuel with
  | O => j
  | S fuel' =>
      if den <=? num * 10 ^ j then j else first_scale fuel' num den (j + 1)
  end.

(** The [n] with [10^(n-1) <= m * 2^e < 10^n]. *)
Definition decimal_exponent (m e : Z) : Z :=
  let num := m * 2 ^ Z.max e 0 in
  let den := 2 ^ Z.max (- e) 0 in
  if den <=? num then Z.of_nat (String.length (Text.decimal (num / den)))
  else 1 - first_scale 400 num den 1.

(** The rounding interval of [m * 2^e] in units of [2^(e-2)]: the value
    itself is [4m], the upper midpoint [4m+2], the lower midpoint [4m-2],
    or [4m-1] at the bottom of a binade, where the spacing below halves. *)
Definition lower_mid (m e : Z) : Z :=
  if (m =? 2 ^ (prec - 1)) && (3 - emax - prec <? e) then 4 * m - 1
  else 4 * m - 2.
Definition upper_mid (m : Z) : Z := 4 * m + 2.

(** Does [t * 10^q] round to [m * 2^e]?  Midpoints round to the even
    mantissa. *)
Definition rounds_to (m e t q : Z) : bool :=
  let lo := cmp_scaled t q (2 - e) (lower_mid m e) in
  let hi := cmp_scaled t q (2 - e) (upper_mid m) in
  let above := match lo with Gt => true | Eq => Z.even m | Lt => false end in
  let below := match hi with Lt => true | Eq => Z.even m | Gt => false end in
  above && below.

(** The candidates with [k] digits: the two multiples of [10^(n0-k)]
    around the value.  The result is [(s, n)]. *)
Definition shortest_at (m e n0 k : Z) : option (Z * Z) :=
  let q := n0 - k in
  let num := 4 * m * 10 ^ Z.max (- q) 0 * 2 ^ Z.max (e - 2) 0 in
  let den := 10 ^ Z.max q 0 * 2 ^ Z.max (2 - e) 0 in
  let t_lo := num / den in
  let t_hi := t_lo + 1 in
  let ok_lo := (10 ^ (k - 1) <=? t_lo) && rounds_to m e t_lo q in
  let ok_hi := rounds_to m e t_hi q in
  let norm t := if t =? 10 ^ k then (10 ^ (k - 1), n0 + 1) else (t, n0) in
  (* twice the distance of the value to each candidate, in units of 1/den *)
  let d_lo := num - t_lo * den in
  let d_hi := t_hi * den - num in
  match ok_lo, ok_hi with
  | false, false => None
  | true, false => Some (norm t_lo)
  | false, true => Some (norm t_hi)
  | true, true =>
      match d_lo ?= d_hi with
      | Lt => Some (norm t_lo)
      | Gt => Some (norm t_hi)
      | Eq => if Z.even t_lo then Some (norm t_lo) else Some (norm t_hi)
      end
  end.

Fixpoint shortest_from (fuel : nat) (m e n0 k : Z) : Z * Z * Z :=
  match fuel with
  | O => (m, 0, k)
  | S fuel' =>
      match shortest_at m e n0 k with
      | Some (s, n) => (s, n, k)
      | None => shortest_from fuel' m e n0 (k + 1)
      end
  end.

(** [(s, n, k)] for the positive finite number [m * 2^e]. *)
Definition shortest (m e : Z) : Z * Z * Z :=
  shortest_from 17 m e (decimal_exponent m e) 1.

Definition format_positive (m e : Z) : string :=
  let '(s, n, k) := shortest m e in
  let digits := Text.decimal s in
  if (- 5 <=? n) && (n <=? 21) then
    if k <=? n then digits ++ Text.repeat_string (Z.to_nat (n - k)) "0"
    else if 0 <? n then
      Text.take (Z.to_nat n) digits ++ "." ++ Text.drop (Z.to_nat n) digits
    else "0." ++ Text.repeat_string (Z.to_nat (- n)) "0" ++ digits
  else
    let sign := if n <? 0 then "-" else "+" in
    let expo := "e" ++ sign ++ Text.decimal (Z.abs (n - 1)) in
    if k =? 1 then digits ++ expo
    else Text.take 1 digits ++ "." ++ Text.drop 1 digits ++ expo.

Definition toString (x : t) : string :=
  match x with
  | S754_nan => "NaN"
  | S754_zero _ => "0"
  | S754_infinity false => "Infinity"
  | S754_infinity true => "-Infinity"
  | S754_finite false m e => format_positive (Zpos m) e
  | S754_finite true m e => "-" ++ format_positive (Zpos m) e
  end.

Definition is_finite (x : t) : bool :=
  match x with
  | S754_zero _ | S754_finite _ _ _ => true
  | _ => false
  end.

End Number.

(** ** Values

    The values the handlers see: what [express.json()] parses from a request
    body, what the object literals of server.js build, and [undefined] for a
    missing property.  An object is its own properties in enumeration order,
    each key once;
    property values are data, never functions, and every object inherits
    from [Object.prototype] (arrays from [Array.prototype]).  A string is the
    UTF-8 text of a well-formed JavaScript string. *)

#[warnings="-register-all"]
Inductive JsValue : Type :=
| JUndefined
| JNull
| JBool (b : bool)
| JNum (n : Number.t)
| JStr (s : string)
| JArr (elems : list JsValue)
| JObj (props : list (string * JsValue)).

(** Induction over values, with the elements of an array at hand. *)
Fixpoint JsValue_nested_ind (P : JsValue -> Prop)
  (Hundef : P JUndefined) (Hnull : P JNull)
  (Hbool : forall b, P (JBool b)) (Hnum : forall n, P (JNum n))
  (Hstr : forall s, P (JStr s))
  (Harr : forall elems, Forall P elems -> P (JArr elems))
  (Hobj : forall props, Forall (fun kv => P (snd kv)) props -> P (JObj props))
  (v : JsValue) {struct v} : P v :=
  let rec := JsValue_nested_ind P Hundef Hnull Hbool Hnum Hstr Harr Hobj in
  match v with
  | JUndefined => Hundef
  | JNull => Hnull
  | JBool b => Hbool b
  | JNum n => Hnum n
  | JStr s => Hstr s
  | JArr elems =>
      Harr elems
        ((fix all (l : list JsValue) : Forall P l :=
            match l with
            | [] => Forall_nil P
            | x :: rest => Forall_cons x (rec x) (all rest)
            end) elems)
  | JObj props =>
      Hobj props
        ((fix all (l : list (string * JsValue))
            : Forall (fun kv => P (snd kv)) l :=
            match l with
            | [] => Forall_nil _
            | kv :: rest => Forall_cons kv (rec (snd kv)) (all rest)
            end) props)
  end.

(** Thrown values.  server.js throws [new Error(...)]; the language itself
    throws [TypeError]. *)
Inductive JsError : Type :=
| ErrorObj (message : string)
| TypeErrorObj (message : string).

Definition message (e : JsError) : string :=
  match e with
  | ErrorObj m => m
  | TypeErrorObj m => m
  end.

Definition is_TypeError (e : JsError) : Prop :=
  exists m, e = TypeErrorObj m.

(** ** Completions: a value, or a throw *)

Inductive Completion (A : Type) : Type :=
| Normal (a : A)
| Throw (e : JsError).

Arguments Normal {A} a.
Arguments Throw {A} e.

Definition bind {A B : Type} (c : Completion A) (k : A -> Completion B)
  : Completion B :=
  match c with
  | Normal a => k a
  | Throw e => Throw e
  end.

Notation "x <- c ;; k" := (bind c (fun x => k))
  (at level 61, c at next level, right associativity).
Notation "c ;;; k" := (bind c (fun _ => k))
  (at level 61, right associativity).

Module Js.

(** The wording of a [TypeError] is the engine's; these are V8's (the
    Dockerfile runs the server on Node 18). *)
Definition kind_name (v : JsValue) : string :=
  match v with
  | JNull => "null"
  | _ => "undefined"
  end.

Definition msg_destructure (prop source : string) (v : JsValue) : string :=
  "Cannot destructure property '" ++ prop ++ "' of '" ++ source
    ++ "' as it is " ++ kind_name v ++ ".".

Definition msg_read (prop : string) (v : JsValue) : string :=
  "Cannot read properties of " ++ kind_name v
    ++ " (reading '" ++ prop ++ "')".

Definition msg_to_primitive : string :=
  "Cannot convert object to primitive value".

Definition nullish (v : JsValue) : bool :=
  match v with
  | JUndefined | JNull => true
  | _ => false
  end.

Fixpoint lookup (key : string) (props : list (string * JsValue))
  : option JsValue :=
  match props with
  | [] => None
  | (k, v) :: rest => if String.eqb k key then Some v else lookup key rest
  end.

(** [v[key]] for a [v] that is not [undefined] or [null], and a [key] that
    is neither an array index, ["length"] nor a name defined on a built-in
    prototype (the server reads [method], [params], [name], [arguments],
    [message], [a], [b]): the own property, or [undefined]. *)
Definition field (v : JsValue) (key : string) : JsValue :=
  match v with
  | JObj props =>
      match lookup key props with
      | Some x => x
      | None => JUndefined
      end
  | _ => JUndefined
  end.

(** [const { prop, ... } = v]: the pattern first requires [v] to be
    coercible to an object. *)
Definition destructure (prop source : string) (v : JsValue)
  : Completion unit :=
  if nullish v then Throw (TypeErrorObj (msg_destructure prop source v))
  else Normal tt.

(** The member expression [v.key]. *)
Definition member (v : JsValue) (key : string) : Completion JsValue :=
  if nullish v then Throw (TypeErrorObj (msg_read key v))
  else Normal (field v key).

Definition has_own (key : string) (props : list (string * JsValue)) : bool :=
  match lookup key props with
  | Some _ => true
  | None => false
  end.

(** [ToString].  An object goes through [ToPrimitive]: a plain object
    yields ["[object Object]"] from [Object.prototype.toString], unless an
    own [toString] property shadows it; that property is data, hence not
    callable, and [Object.prototype.valueOf] (or an own [valueOf], not
    callable either) gives no primitive, so the conversion throws.  An
    array is joined with [","], [undefined] and [null] elements as the
    empty string. *)
Definition join_elements (to_string : JsValue -> Completion string)
  : list JsValue -> Completion string :=
  fix join (l : list JsValue) : Completion string :=
    match l with
    | [] => Normal ""
    | x :: rest =>
        sx <- (if nullish x then Normal "" else to_string x) ;;
        match rest with
        | [] => Normal sx
        | _ :: _ => sr <- join rest ;; Normal (sx ++ "," ++ sr)
        end
    end.

Fixpoint ToString (v : JsValue) : Completion string :=
  match v with
  | JUndefined => Normal "undefined"
  | JNull => Normal "null"
  | JBool true => Normal "true"
  | JBool false => Normal "false"
  | JNum n => Normal (Number.toString n)
  | JStr s => Normal s
  | JArr elems => join_elements ToString elems
  | JObj props =>
      if has_own "toString" props then Throw (TypeErrorObj msg_to_primitive)
      else Normal "[object Object]"
  end.

(** Primitive values, the results of [ToPrimitive]. *)
Inductive Prim : Type :=
| PUndefined
| PNull
| PBool (b : bool)
| PNum (n : Number.t)
| PStr (s : string).

(** [ToPrimitive] without a hint.  Plain objects and arrays have no
    primitive [valueOf], so the result is the one of [toString], as with
    the string hint. *)
Definition ToPrimitive (v : JsValue) : Completion Prim :=
  match v with
  | JUndefined => Normal PUndefined
  | JNull => Normal PNull
  | JBool b => Normal (PBool b)
  | JNum n => Normal (PNum n)
  | JStr s => Normal (PStr s)
  | JArr _ | JObj _ => s <- ToString v ;; Normal (PStr s)
  end.

Definition prim_to_string (p : Prim) : string :=
  match p with
  | PUndefined => "undefined"
  | PNull => "null"
  | PBool true => "true"
  | PBool false => "false"
  | PNum n => Number.toString n
  | PStr s => s
  end.

(** [ToNumber] on the primitives that are not strings. *)
Definition prim_to_number (p : Prim) : option Number.t :=
  match p with
  | PUndefined => Some Number.NaN
  | PNull => Some Number.zero
  | PBool true => Some (Number.of_Z 1)
  | PBool false => Some Number.zero
  | PNum n => Some n
  | PStr _ => None
  end.

(** The binary [+]: both operands to primitives, left first; string
    concatenation as soon as one of them is a string, numeric addition
    otherwise. *)
Definition plus (l r : JsValue) : Completion JsValue :=
  lprim <- ToPrimitive l ;;
  rprim <- ToPrimitive r ;;
  match prim_to_number lprim, prim_to_number rprim with
  | Some x, Some y => Normal (JNum (Number.add x y))
  | _, _ => Normal (JStr (prim_to_string lprim ++ prim_to_string rprim))
  end.

(** [v === "literal"]. *)
Definition strict_eq_string (v : JsValue) (lit : string) : bool :=
  match v with
  | JStr s => String.eqb s lit
  | _ => false
  end.

End Js.

(** ** JSON.stringify *)

Module JSON.

Definition escape_char (c : ascii) : string :=
  let n := Z.of_nat (nat_of_ascii c) in
  if n =? 34 then "\" ++ Text.DQUOTE
  else if n =? 92 then "\\"
  else if n =? 8 then "\b"
  else if n =? 9 then "\t"
  else if n =? 10 then "\n"
  else if n =? 12 then "\f"
  else if n =? 13 then "\r"
  else if n <? 32 then
    "\u00" ++ String (Text.hex_char (n / 16))
                (String (Text.hex_char (n mod 16)) EmptyString)
  else String c EmptyString.

Fixpoint escape (s : string) : string :=
  match s with
  | EmptyString => ""
  | String c rest => escape_char c ++ escape rest
  end.

(** [QuoteJSONString]. *)
Definition quote (s : string) : string :=
  Text.DQUOTE ++ escape s ++ Text.DQUOTE.

(** [JSON.stringify(v)]; [None] is the result [undefined].  A property
    whose value is [undefined] is left out of an object and printed as
    [null] in an array; a number that is not finite is printed as [null]. *)
Fixpoint stringify (v : JsValue) : option string :=
  match v with
  | JUndefined => None
  | JNull => Some "null"
  | JBool true => Some "true"
  | JBool false => Some "false"
  | JNum n =>
      Some (if Number.is_finite n then Number.toString n else "null")
  | JStr s => Some (quote s)
  | JArr elems =>
      let parts :=
        (fix each (l : list JsValue) : list string :=
           match l with
           | [] => []
           | x :: rest =>
               match stringify x with
               | Some sx => sx
               | None => "null"
               end :: each rest
           end) elems in
      Some ("[" ++ Text.join "," parts ++ "]")
  | JObj props =>
      let parts :=
        (fix each (l : list (string * JsValue)) : list string :=
           match l with
           | [] => []
           | (k, x) :: rest =>
               match stringify x with
               | Some sx => (quote k ++ ":" ++ sx) :: each rest
               | None => each rest
               end
           end) props in
      Some ("{" ++ Text.join "," parts ++ "}")
  end.

(** [`${JSON.stringify(v)}`]. *)
Definition stringify_text (v : JsValue) : string :=
  match stringify v with
  | Some s => s
  | None => "undefined"
  end.

End JSON.

(** ** Date.prototype.toISOString *)

Module Date.

Definition msPerDay : Z := 86400000.

(** Year, month and day of the month of a day number counted from
    1970-01-01, in the proleptic Gregorian calendar. *)
Definition civil_from_days (days : Z) : Z * Z * Z :=
  let z := days + 719468 in
  let era := z / 146097 in
  let doe := z - era * 146097 in
  let yoe := (doe - doe / 1460 + doe / 36524 - doe / 146096) / 365 in
  let doy := doe - (365 * yoe + yoe / 4 - yoe / 100) in
  let mp := (5 * doy + 2) / 153 in
  let d := doy - (153 * mp + 2) / 5 + 1 in
  let m := if mp <? 10 then mp + 3 else mp - 9 in
  let y := yoe + era * 400 + (if m <=? 2 then 1 else 0) in
  (y, m, d).

Definition year_text (y : Z) : string :=
  if (0 <=? y) && (y <=? 9999) then Text.pad_left 4 y
  else (if y <? 0 then "-" else "+") ++ Text.pad_left 6 (Z.abs y).

(** [t] is a time value: milliseconds since the epoch, UTC. *)
Definition toISOString (t : Z) : string :=
  let '(y, m, d) := civil_from_days (t / msPerDay) in
  let ms := t mod msPerDay in
  year_text y ++ "-" ++ Text.pad_left 2 m ++ "-" ++ Text.pad_left 2 d
    ++ "T" ++ Text.pad_left 2 (ms / 3600000)
    ++ ":" ++ Text.pad_left 2 (ms / 60000 mod 60)
    ++ ":" ++ Text.pad_left 2 (ms / 1000 mod 60)
    ++ "." ++ Text.pad_left 3 (ms mod 1000) ++ "Z".

End Date.

(** ** The server *)

Module SimpleMCPServer.

(** [getTools()]: the four descriptors, a fresh array on every call. *)
Definition getTools : JsValue :=
  JArr [
    JObj [
      ("name", JStr "hello");
      ("description", JStr "Say hello to someone");
      ("inputSchema", JObj [
        ("type", JStr "object");
        ("properties", JObj [
          ("name", JObj [
            ("type", JStr "string");
            ("description", JStr "Name of the person to greet")
          ])
        ]);
        ("required", JArr [JStr "name"])
      ])
    ];
    JObj [
      ("name", JStr "echo");
      ("description", JStr "Echo back the input message");
      ("inputSchema", JObj [
        ("type", JStr "object");
        ("properties", JObj [
          ("message", JObj [
            ("type", JStr "string");
            ("description", JStr "Message to echo back")
          ])
        ]);
        ("required", JArr [JStr "message"])
      ])
    ];
    JObj [
      ("name", JStr "get_time");
      ("description", JStr "Get the current time");
      ("inputSchema", JObj [
        ("type", JStr "object");
        ("properties", JObj []);
        ("required", JArr [])
      ])
    ];
    JObj [
      ("name", JStr "add_numbers");
      ("description", JStr "Add two numbers together");
      ("inputSchema", JObj [
        ("type", JStr "object");
        ("properties", JObj [
          ("a", JObj [
            ("type", JStr "number");
            ("description", JStr "First number")
          ]);
          ("b", JObj [
            ("type", JStr "number");
            ("description", JStr "Second number")
          ])
        ]);
        ("required", JArr [JStr "a"; JStr "b"])
      ])
    ]
  ].

(** The literal [{ content: [{ type: 'text', text }] }] that every tool
    branch returns. *)
Definition text_content (text : string) : JsValue :=
  JObj [("content", JArr [JObj [("type", JStr "text"); ("text", JStr text)]])].

(** [handleToolCall(request)].  [now] is the time value that [new Date()]
    reads when the call runs.  The function is [async]: a throw is the
    rejection of the promise it returns, which [await] throws again in the
    caller. *)
Definition handleToolCall (now : Z) (request : JsValue)
  : Completion JsValue :=
  Js.destructure "method" "request" request ;;;
  let method := Js.field request "method" in
  let params := Js.field request "params" in
  if Js.strict_eq_string method "tools/list" then
    Normal (JObj [("tools", getTools)])
  else if Js.strict_eq_string method "tools/call" then
    Js.destructure "name" "params" params ;;;
    let name := Js.field params "name" in
    let args := Js.field params "arguments" in
    if Js.strict_eq_string name "hello" then
      who <- Js.member args "name" ;;
      who_text <- Js.ToString who ;;
      Normal (text_content
        ("Hello, " ++ who_text ++ "! Welcome to the simple MCP server."))
    else if Js.strict_eq_string name "echo" then
      msg <- Js.member args "message" ;;
      msg_text <- Js.ToString msg ;;
      Normal (text_content ("Echo: " ++ msg_text))
    else if Js.strict_eq_string name "get_time" then
      Normal (text_content ("Current time: " ++ Date.toISOString now))
    else if Js.strict_eq_string name "add_numbers" then
      a <- Js.member args "a" ;;
      b <- Js.member args "b" ;;
      result <- Js.plus a b ;;
      a' <- Js.member args "a" ;;
      a_text <- Js.ToString a' ;;
      b' <- Js.member args "b" ;;
      b_text <- Js.ToString b' ;;
      result_text <- Js.ToString result ;;
      Normal (text_content (a_text ++ " + " ++ b_text ++ " = " ++ result_text))
    else
      name_text <- Js.ToString name ;;
      Throw (ErrorObj ("Unknown tool: " ++ name_text))
  else
    method_text <- Js.ToString method ;;
    Throw (ErrorObj ("Unknown method: " ++ method_text)).

(** What a route answers: the status code and the value given to
    [res.json]. *)
Record HttpResponse : Type := {
  status : Z;
  json : JsValue
}.

(** The body on the wire. *)
Definition wire_body (r : HttpResponse) : string :=
  JSON.stringify_text (json r).

(** [app.post('/sse', ...)]: [req.body] is the parsed JSON body.  The
    calls to [console.log] and [console.error] write to the process
    output only. *)
Definition post_sse (now : Z) (body : JsValue) : HttpResponse :=
  match handleToolCall now body with
  | Normal result => {| status := 200; json := result |}
  | Throw error =>
      {| status := 500; json := JObj [("error", JStr (message error))] |}
  end.

(** [app.post('/mcp', ...)]. *)
Definition post_mcp (now : Z) (body : JsValue) : HttpResponse :=
  match handleToolCall now body with
  | Normal result => {| status := 200; json := result |}
  | Throw error =>
      {| status := 500; json := JObj [("error", JStr (message error))] |}
  end.

(** The two errors the dispatcher throws itself. *)
Definition UnknownTool (name_text : string) : JsError :=
  ErrorObj ("Unknown tool: " ++ name_text).
Definition UnknownMethod (method_text : string) : JsError :=
  ErrorObj ("Unknown method: " ++ method_text).

(** [tools.map(t => t.name)], as the /test route computes it. *)
Definition descriptor_names (tools : JsValue) : list JsValue :=
  match tools with
  | JArr descriptors => map (fun t => Js.field t "name") descriptors
  | _ => []
  end.

(** A request [{ method: 'tools/call', params: { name, arguments } }]. *)
Definition call_request (name args : JsValue) : JsValue :=
  JObj [("method", JStr "tools/call");
        ("params", JObj [("name", name); ("arguments", args)])].

End SimpleMCPServer.

(** ** GET /sse: the event stream and its keep-alive timer

    Time is a virtual clock in milliseconds.  The route handler runs when
    the connection is accepted; afterwards the event loop delivers two kinds
    of events to it: the interval timer falling due, and the ['close'] event
    of the request when the peer goes away. *)

Module Sse.

Import SimpleMCPServer.

(** The response object: the head, the chunks written with the time of
    each write, and whether [res.end()] was called. *)
Record Response : Type := {
  head : option (Z * list (string * string));
  written : list (Z * string);
  ended : bool
}.

Definition fresh_response : Response :=
  {| head := None; written := []; ended := false |}.

Definition writeHead (code : Z) (headers : list (string * string))
  (r : Response) : Response :=
  {| head := Some (code, headers); written := written r; ended := ended r |}.

Definition write (time : Z) (chunk : string) (r : Response) : Response :=
  {| head := head r;
     written := (written r ++ [(time, chunk)])%list;
     ended := ended r |}.

Definition end_response (r : Response) : Response :=
  {| head := head r; written := written r; ended := true |}.

(** One connection as the event loop sees it.  [interval] is the timer
    made by [setInterval]: its period and the time it next falls due, or
    [None] before it is set and after [clearInterval].  [peer_close] is
    the time at which the peer closes the connection, if it ever does and
    has not done so yet. *)
Record Loop : Type := {
  clock : Z;
  res : Response;
  interval : option (Z * Z);
  close_listener : bool;
  peer_close : option Z
}.

Definition initMessage : JsValue :=
  JObj [("jsonrpc", JStr "2.0");
        ("method", JStr "notifications/initialized");
        ("params", JObj [])].

Definition toolsMessage (tools : JsValue) : JsValue :=
  JObj [("jsonrpc", JStr "2.0");
        ("method", JStr "tools/list");
        ("params", JObj [("tools", tools)])].

(** [`data: ${JSON.stringify(msg)}\n\n`]. *)
Definition data_frame (msg : JsValue) : string :=
  "data: " ++ JSON.stringify_text msg ++ Text.LF ++ Text.LF.

Definition keep_alive_frame : string :=
  ": keep-alive" ++ Text.LF ++ Text.LF.

Definition sse_headers : list (string * string) :=
  [("Content-Type", "text/event-stream");
   ("Cache-Control", "no-cache");
   ("Connection", "keep-alive");
   ("Access-Control-Allow-Origin", "*");
   ("Access-Control-Allow-Headers", "Cache-Control")].

(** [app.get('/sse', ...)], run at time [accepted] for a peer that will
    close at [closing]. *)
Definition get_sse (accepted : Z) (closing : option Z) : Loop :=
  let r := writeHead 200 sse_headers fresh_response in
  let r := write accepted (data_frame initMessage) r in
  let tools := getTools in
  let r := write accepted (data_frame (toolsMessage tools)) r in
  {| clock := accepted;
     res := r;
     interval := Some (15000, accepted + 15000);
     close_listener := true;
     peer_close := closing |}.

(** The callback given to [setInterval]. *)
Definition on_interval (l : Loop) : Loop :=
  {| clock := clock l;
     res := write (clock l) keep_alive_frame (res l);
     interval := interval l;
     close_listener := close_listener l;
     peer_close := peer_close l |}.

(** The listener given to [req.on('close', ...)]:
    [clearInterval(keepAlive); res.end()]. *)
Definition on_close (l : Loop) : Loop :=
  {| clock := clock l;
     res := end_response (res l);
     interval := None;
     close_listener := close_listener l;
     peer_close := peer_close l |}.

Inductive Event : Type :=
| TimerDue (time : Z)
| PeerClose (time : Z).

(** The next event of the loop.  When the timer falls due at the very
    time of the close, the timer comes first: a loop iteration runs its
    timers before it polls for I/O. *)
Definition next_event (l : Loop) : option Event :=
  match interval l, peer_close l with
  | Some (_, due), Some c =>
      if due <=? c then Some (TimerDue due) else Some (PeerClose c)
  | Some (_, due), None => Some (TimerDue due)
  | None, Some c => Some (PeerClose c)
  | None, None => None
  end.

Definition deliver (l : Loop) (ev : Event) : Loop :=
  match ev with
  | TimerDue time =>
      on_interval
        {| clock := time;
           res := res l;
           interval :=
             match interval l with
             | Some (period, _) => Some (period, time + period)
             | None => None
             end;
           close_listener := close_listener l;
           peer_close := peer_close l |}
  | PeerClose time =>
      let l' :=
        {| clock := time;
           res := res l;
           interval := interval l;
           close_listener := close_listener l;
           peer_close := None |} in
      if close_listener l then on_close l' else l'
  end.

(** At most [turns] events, one after the other. *)
Fixpoint run (turns : nat) (l : Loop) : Loop :=
  match turns with
  | O => l
  | S turns' =>
      match next_event l with
      | Some ev => run turns' (deliver l ev)
      | None => l
      end
  end.

(** The keep-alive writes number 1 to [count] of a connection accepted at
    [accepted]: number [k] is written [15000 * k] ms after the accept. *)
Definition keep_alives (accepted : Z) (count : nat) : list (Z * string) :=
  map (fun k => (accepted + 15000 * Z.of_nat k, keep_alive_frame))
      (seq 1 count).

(** How many keep-alives the timer gets to write in [turns] events. *)
Definition beats (accepted : Z) (closing : option Z) (turns : nat) : nat :=
  match closing with
  | Some c => Nat.min turns (Z.to_nat ((c - accepted) / 15000))
  | None => turns
  end.

(** The two frames the handler writes when it runs. *)
Definition opening (accepted : Z) : list (Z * string) :=
  [(accepted, data_frame initMessage);
   (accepted, data_frame (toolsMessage getTools))].

(** The connection after [j] keep-alives, the peer still there. *)
Definition streaming (accepted : Z) (closing : option Z) (j : nat) : Loop :=
  {| clock := accepted + 15000 * Z.of_nat j;
     res := {| head := Some (200, sse_headers);
               written := (opening accepted ++ keep_alives accepted j)%list;
               ended := false |};
     interval := Some (15000, accepted + 15000 * (Z.of_nat j + 1));
     close_listener := true;
     peer_close := closing |}.

(** The connection once the ['close'] listener has run at time [c]. *)
Definition closed (accepted c : Z) (j : nat) : Loop :=
  {| clock := c;
     res := {| head := Some (200, sse_headers);
               written := (opening accepted ++ keep_alives accepted j)%list;
               ended := true |};
     interval := None;
     close_listener := true;
     peer_close := None |}.

End Sse.

(** ** The GET routes that answer with JSON *)

Module Routes.

Import SimpleMCPServer.

(** [tools.length]. *)
Definition array_length (v : JsValue) : JsValue :=
match v with
| JArr elems => JNum (Number.of_Z (Z.of_nat (List.length elems)))
| _ => JUndefined
end.

(** [app.get('/health', ...)]; [now] is what [new Date()] reads. *)
Definition get_health (now : Z) : HttpResponse :=
{| status := 200;
   json := JObj [("status", JStr "healthy");
                 ("timestamp", JStr (Date.toISOString now));
                 ("server", JStr "simple-mcp-example")] |}.

(** [app.get('/', ...)]. *)
Definition get_root : HttpResponse :=
{| status := 200;
   json := JObj [("name", JStr "simple-mcp-example");
                 ("type", JStr "mcp-server");
                 ("version", JStr "1.0.0");
                 ("endpoints",
                  JArr [JStr "/sse"; JStr "/health"; JStr "/status"])] |}.

(** [app.get('/status', ...)]. *)
Definition get_status : HttpResponse :=
{| status := 200;
   json := JObj [("status", JStr "ok");
                 ("tools", getTools);
                 ("server", JObj [("name", JStr "simple-mcp-example");
                                  ("version", JStr "1.0.0")])] |}.

(** [app.get('/test', ...)]. *)
Definition get_test (now : Z) : HttpResponse :=
let tools := getTools in
{| status := 200;
   json := JObj [("message", JStr "Simple MCP Server is running!");
                 ("tools", JArr (descriptor_names tools));
                 ("total_tools", array_length tools);
                 ("timestamp", JStr (Date.toISOString now))] |}.

(** [app.get('/tools', ...)]. *)
Definition get_tools : HttpResponse :=
let tools := getTools in
{| status := 200; json := JObj [("tools", tools)] |}.

(** What [express.json()], installed by [setupExpress], lets through to a
    POST route as [req.body]: in its strict mode, the default, a JSON text
    that is not an object or an array is refused with status 400 before
    any route runs. *)
Definition parsed_body (v : JsValue) : bool :=
match v with
| JObj _ | JArr _ => true
| _ => false
end.

End Routes.

(** ** The constructor: port and host from the environment *)

Module Startup.

(** [process.env], as far as the constructor reads it: a variable is a
    string, or it is not set. *)
Record Env : Type := {
  PORT : option string;
  HOST : option string
}.

(** [value || fallback]: a variable that is not set and the empty string
    are both falsy. *)
Definition or_else (value : option string) (fallback : string) : string :=
match value with
| Some EmptyString => fallback
| Some s => s
| None => fallback
end.

Definition code (c : ascii) : Z := Z.of_nat (nat_of_ascii c).

(** White space and line terminators of one byte. *)
Definition is_space1 (n1 : Z) : bool :=
(n1 =? 9) || (n1 =? 10) || (n1 =? 11) || (n1 =? 12) || (n1 =? 13)
  || (n1 =? 32).

(** U+00A0. *)
Definition is_space2 (n1 n2 : Z) : bool :=
(n1 =? 194) && (n2 =? 160).

(** U+1680, U+2000 to U+200A, U+2028, U+2029, U+202F, U+205F, U+3000 and
    U+FEFF. *)
Definition is_space3 (n1 n2 n3 : Z) : bool :=
((n1 =? 225) && (n2 =? 154) && (n3 =? 128))
  || ((n1 =? 226) && (n2 =? 128)
        && (((128 <=? n3) && (n3 <=? 138))
              || (n3 =? 168) || (n3 =? 169) || (n3 =? 175)))
  || ((n1 =? 226) && (n2 =? 129) && (n3 =? 159))
  || ((n1 =? 227) && (n2 =? 128) && (n3 =? 128))
  || ((n1 =? 239) && (n2 =? 187) && (n3 =? 191)).

(** The string without its leading white space. *)
Fixpoint trim_start (s : string) : string :=
match s with
| EmptyString => s
| String c1 rest1 =>
    if is_space1 (code c1) then trim_start rest1
    else
      match rest1 with
      | EmptyString => s
      | String c2 rest2 =>
          if is_space2 (code c1) (code c2) then trim_start rest2
          else
            match rest2 with
            | EmptyString => s
            | String c3 rest3 =>
                if is_space3 (code c1) (code c2) (code c3)
                then trim_start rest3
                else s
            end
      end
end.

(** The value of a digit in a radix up to 36. *)
Definition digit_value (c : ascii) : option Z :=
let n := code c in
if (48 <=? n) && (n <=? 57) then Some (n - 48)
else if (97 <=? n) && (n <=? 122) then Some (n - 87)
else if (65 <=? n) && (n <=? 90) then Some (n - 55)
else None.

Definition is_digit (radix : Z) (c : ascii) : bool :=
match digit_value c with
| Some d => d <? radix
| None => false
end.

(** The integer written by the longest prefix of digits of [s], after the
    digits already read as [acc]. *)
Fixpoint scan_digits (radix : Z) (s : string) (acc : Z) : Z :=
match s with
| EmptyString => acc
| String c rest =>
    match digit_value c with
    | Some d =>
        if d <? radix then scan_digits radix rest (acc * radix + d)
        else acc
    | None => acc
    end
end.

Definition strip_sign (s : string) : bool * string :=
match s with
| String c rest =>
    if code c =? 45 then (true, rest)
    else if code c =? 43 then (false, rest)
    else (false, s)
| EmptyString => (false, s)
end.

(** Without a radix argument the radix is 10, or 16 after [0x] or [0X]. *)
Definition strip_prefix (s : string) : Z * string :=
match s with
| String c1 (String c2 rest) =>
    if (code c1 =? 48) && ((code c2 =? 120) || (code c2 =? 88))
    then (16, rest)
    else (10, s)
| _ => (10, s)
end.

(** [parseInt(s)], one argument.  The digits are read exactly and the
    integer is rounded to the nearest number. *)
Definition parseInt (s : string) : Number.t :=
let '(negative, unsigned) := strip_sign (trim_start s) in
let '(radix, digits) := strip_prefix unsigned in
match digits with
| String c _ =>
    if is_digit radix c then
      let n := scan_digits radix digits 0 in
      if n =? 0 then S754_zero negative
      else Number.of_Z (if negative then - n else n)
    else Number.NaN
| EmptyString => Number.NaN
end.

(** What the constructor stores in [this.port] and [this.host]. *)
Record Server : Type := {
  port : Number.t;
  host : string
}.

Definition constructor (env : Env) : Server :=
{| port := parseInt (or_else (PORT env) "8000");
   host := or_else (HOST env) "0.0.0.0" |}.

End Startup.

(** ** Kinds of values *)

Module Kind.

(** Neither an array nor an object. *)
Definition is_primitive (v : JsValue) : bool :=
match v with
| JArr _ | JObj _ => false
| _ => true
end.

Definition is_string (v : JsValue) : bool :=
match v with
| JStr _ => true
| _ => false
end.

(** The property names a descriptor declares in
    [inputSchema.properties]. *)
Definition declared_keys (descriptor : JsValue) : list string :=
match Js.field (Js.field descriptor "inputSchema") "properties" with
| JObj props => map fst props
| _ => []
end.

(** The elements of an array. *)
Definition elements (v : JsValue) : list JsValue :=
match v with
| JArr elems => elems
| _ => []
end.

(** What may follow the digits of a decimal number without changing what
    [parseInt] reads: nothing, or a character that is neither a decimal
    digit nor the [x] of a hexadecimal prefix. *)
Definition ends_decimal (tail : string) : bool :=
match tail with
| EmptyString => true
| String c _ =>
    negb (Startup.is_digit 10 c)
      && negb (Startup.code c =? 120) && negb (Startup.code c =? 88)
end.

(** A letter of the ASCII alphabet. *)
Definition is_letter (c : ascii) : bool :=
let n := Startup.code c in
((65 <=? n) && (n <=? 90)) || ((97 <=? n) && (n <=? 122)).

(** The integers from 0 up to, not including, [n]. *)
Definition below (n : nat) : list Z := map Z.of_nat (seq 0 n).

(** No line feed and no carriage return. *)
Fixpoint single_line (s : string) : bool :=
match s with
| EmptyString => true
| String c rest =>
    negb (Startup.code c =? 10) && negb (Startup.code c =? 13)
      && single_line rest
end.

End Kind.

(** * Properties *)

Import SimpleMCPServer.

Arguments Number.toString : simpl never.
Arguments Number.add : simpl never.
Arguments Date.toISOString : simpl never.

(** ** Facts about the language fragment *)

Lemma field_some_not_nullish (v : JsValue) (key : string) :
  Js.field v key <> JUndefined -> Js.nullish v = false.
Proof.
  destruct v; simpl; intro H; try reflexivity; now elim H.
Qed.

Lemma field_string_not_nullish (v : JsValue) (key s : string) :
  Js.field v key = JStr s -> Js.nullish v = false.
Proof.
  intro H. apply (field_some_not_nullish v key). rewrite H. discriminate.
Qed.

Lemma field_number_not_nullish (v : JsValue) (key : string) (n : Number.t) :
  Js.field v key = JNum n -> Js.nullish v = false.
Proof.
  intro H. apply (field_some_not_nullish v key). rewrite H. discriminate.
Qed.

Lemma strict_eq_string_true (v : JsValue) (lit : string) :
  Js.strict_eq_string v lit = true <-> v = JStr lit.
Proof.
  destruct v; simpl; split; intro H; try discriminate.
  - apply String.eqb_eq in H. now subst.
  - injection H as ->. apply String.eqb_refl.
Qed.

Lemma strict_eq_string_false (v : JsValue) (lit : string) :
  Js.strict_eq_string v lit = false <-> v <> JStr lit.
Proof.
  split.
  - intros H Heq. apply strict_eq_string_true in Heq. congruence.
  - intro H. destruct (Js.strict_eq_string v lit) eqn:E; [|reflexivity].
    apply strict_eq_string_true in E. contradiction.
Qed.

Lemma join_elements_throws (elems : list JsValue) (e : JsError) :
  Forall (fun x => forall e', Js.ToString x = Throw e' -> is_TypeError e')
         elems ->
  Js.join_elements Js.ToString elems = Throw e -> is_TypeError e.
Proof.
  intro Hall. revert e.
  induction Hall as [|x rest Hx Hrest IH]; intro e; simpl.
  - discriminate.
  - destruct (Js.nullish x).
    + cbn [bind]. destruct rest as [|y rest']; [discriminate|].
      destruct (Js.join_elements Js.ToString (y :: rest')) as [sr|e'] eqn:E;
        cbn [bind]; intro H0; [discriminate|].
      exact (IH e H0).
    + destruct (Js.ToString x) as [sx|e'] eqn:Ex; cbn [bind].
      * destruct rest as [|y rest']; [discriminate|].
        destruct (Js.join_elements Js.ToString (y :: rest')) as [sr|e''] eqn:E;
          cbn [bind]; intro H0; [discriminate|].
        exact (IH e H0).
      * intro H0. inversion H0; subst. now apply Hx.
Qed.

(** A string conversion that throws, throws a [TypeError]. *)
Lemma ToString_throws_TypeError (v : JsValue) (e : JsError) :
  Js.ToString v = Throw e -> is_TypeError e.
Proof.
  revert e. induction v using JsValue_nested_ind; intro e;
    try (simpl; discriminate).
  - destruct b; simpl; discriminate.
  - simpl. apply join_elements_throws. exact H.
  - simpl. destruct (Js.has_own "toString" props).
    + intro H0. inversion H0; subst. unfold is_TypeError. eexists. reflexivity.
    + discriminate.
Qed.

Lemma ToPrimitive_throws_TypeError (v : JsValue) (e : JsError) :
  Js.ToPrimitive v = Throw e -> is_TypeError e.
Proof.
  destruct v; simpl; try discriminate.
  - destruct (Js.join_elements Js.ToString elems) eqn:E; cbn [bind];
      [discriminate|].
    intro H0. inversion H0; subst.
    apply (ToString_throws_TypeError (JArr elems)). exact E.
  - destruct (Js.has_own "toString" props); cbn [bind]; [|discriminate].
    intro H0. inversion H0; subst. unfold is_TypeError. eexists. reflexivity.
Qed.

Lemma plus_throws_TypeError (l r : JsValue) (e : JsError) :
  Js.plus l r = Throw e -> is_TypeError e.
Proof.
  unfold Js.plus.
  destruct (Js.ToPrimitive l) as [lp|el] eqn:El; cbn [bind].
  - destruct (Js.ToPrimitive r) as [rp|er] eqn:Er; cbn [bind].
    + destruct (Js.prim_to_number lp), (Js.prim_to_number rp); discriminate.
    + intro H0. inversion H0; subst.
      now apply (ToPrimitive_throws_TypeError r).
  - intro H0. inversion H0; subst.
    now apply (ToPrimitive_throws_TypeError l).
Qed.

Lemma member_throws_TypeError (v : JsValue) (key : string) (e : JsError) :
  Js.member v key = Throw e -> is_TypeError e.
Proof.
  unfold Js.member. destruct (Js.nullish v); [|discriminate].
  intro H0. inversion H0; subst. unfold is_TypeError. eexists. reflexivity.
Qed.

(** The result of [+] is a primitive: its string conversion cannot throw. *)
Lemma plus_result_prints (l r v : JsValue) :
  Js.plus l r = Normal v -> exists s, Js.ToString v = Normal s.
Proof.
  unfold Js.plus.
  destruct (Js.ToPrimitive l) as [lp|el]; cbn [bind]; [|discriminate].
  destruct (Js.ToPrimitive r) as [rp|er]; cbn [bind]; [|discriminate].
  destruct (Js.prim_to_number lp), (Js.prim_to_number rp);
    intro H0; inversion H0; subst; simpl; eauto.
Qed.

(** ** The runtime functions on known values *)

Example number_prints_integer :
  Number.toString (Number.of_Z 2) = "2".
Proof. reflexivity. Qed.

Example number_sum_of_integers :
  Number.add (Number.of_Z 2) (Number.of_Z 3) = Number.of_Z 5.
Proof. reflexivity. Qed.

Example number_prints_rounded_sum :
  Number.toString
    (Number.add (Number.div (Number.of_Z 1) (Number.of_Z 10))
                (Number.div (Number.of_Z 2) (Number.of_Z 10)))
  = "0.30000000000000004".
Proof. vm_compute. reflexivity. Qed.

Example number_prints_exponent :
  Number.toString (Number.of_Z (10 ^ 21)) = "1e+21"
  /\ Number.toString (Number.div (Number.of_Z 1) (Number.of_Z (10 ^ 7)))
     = "1e-7"
  /\ Number.toString (Number.of_Z (2 ^ 64)) = "18446744073709552000".
Proof. vm_compute. repeat split. Qed.

Example plus_concatenates_with_a_string :
  Js.plus (JStr "2") (JNum (Number.of_Z 3)) = Normal (JStr "23").
Proof. reflexivity. Qed.

Example plus_of_missing_operands :
  Js.plus JUndefined JUndefined = Normal (JNum Number.NaN).
Proof. reflexivity. Qed.

Example array_prints_joined :
  Js.ToString (JArr [JNum (Number.of_Z 1); JNull; JArr [JStr "x"]; JObj []])
  = Normal "1,,x,[object Object]".
Proof. reflexivity. Qed.

Example date_prints_iso :
  Date.toISOString 0 = "1970-01-01T00:00:00.000Z"
  /\ Date.toISOString 951782400000 = "2000-02-29T00:00:00.000Z"
  /\ Date.toISOString 1700000000000 = "2023-11-14T22:13:20.000Z".
Proof. vm_compute. repeat split. Qed.

Example init_frame_on_the_wire :
  let q := Text.DQUOTE in
  Sse.data_frame Sse.initMessage
  = "data: {" ++ q ++ "jsonrpc" ++ q ++ ":" ++ q ++ "2.0" ++ q
      ++ "," ++ q ++ "method" ++ q ++ ":"
      ++ q ++ "notifications/initialized" ++ q
      ++ "," ++ q ++ "params" ++ q ++ ":{}}" ++ Text.LF ++ Text.LF.
Proof. reflexivity. Qed.

(** ** The dispatcher *)

(** A request whose [method] is ['tools/call'] and whose [params] can be
    destructured reaches the [switch] on [params.name]. *)
Ltac enter_call Hmethod Hparams :=
  unfold handleToolCall, Js.destructure;
  rewrite (field_string_not_nullish _ _ _ Hmethod); cbn [bind];
  rewrite Hmethod; simpl Js.strict_eq_string; cbv iota;
  rewrite Hparams; cbn [bind].

(** C1: a ['tools/call'] request for [hello] whose arguments carry the string
    [s] under [name] returns the single text item
    ["Hello, <s>! Welcome to the simple MCP server."]. *)
Theorem hello_greets_name (now : Z) (request : JsValue) (s : string) :
  Js.field request "method" = JStr "tools/call" ->
  Js.field (Js.field request "params") "name" = JStr "hello" ->
  Js.field (Js.field (Js.field request "params") "arguments") "name"
    = JStr s ->
  handleToolCall now request
    = Normal (JObj [("content",
      JArr [JObj [("type", JStr "text");
                  ("text",
                     JStr ("Hello, " ++ s
                             ++ "! Welcome to the simple MCP server."))]])]).
Proof.
  intros Hmethod Hname Hwho.
  pose proof (field_string_not_nullish _ _ _ Hname) as Hparams.
  pose proof (field_string_not_nullish _ _ _ Hwho) as Hargs.
  enter_call Hmethod Hparams.
  rewrite Hname. simpl Js.strict_eq_string. cbv iota.
  unfold Js.member. rewrite Hargs. cbn [bind]. rewrite Hwho.
  reflexivity.
Qed.

Lemma hello_greets_World :
  handleToolCall 0
    (call_request (JStr "hello") (JObj [("name", JStr "World")]))
  = Normal (JObj [("content",
      JArr [JObj [("type", JStr "text");
                  ("text",
                     JStr
                       "Hello, World! Welcome to the simple MCP server.")]])]).
Proof.
  exact (hello_greets_name 0
           (call_request (JStr "hello") (JObj [("name", JStr "World")]))
           "World" eq_refl eq_refl eq_refl).
Defined.

(** C3: a ['tools/list'] request never throws and returns [{tools: ...}] with
    the array of [getTools()] as it is: the four descriptors in the order
    hello, echo, get_time, add_numbers, whatever the time of the call and
    the rest of the request. *)
Theorem tools_list_returns_registry (now : Z) (request : JsValue) :
  Js.field request "method" = JStr "tools/list" ->
  handleToolCall now request = Normal (JObj [("tools", getTools)])
  /\ descriptor_names getTools
       = [JStr "hello"; JStr "echo"; JStr "get_time"; JStr "add_numbers"]
  /\ (forall (now' : Z) (request' : JsValue),
        Js.field request' "method" = JStr "tools/list" ->
        handleToolCall now' request' = handleToolCall now request).
Proof.
  assert (Hlist : forall t r, Js.field r "method" = JStr "tools/list" ->
            handleToolCall t r = Normal (JObj [("tools", getTools)])).
  { intros t r Hmethod. unfold handleToolCall, Js.destructure.
    rewrite (field_string_not_nullish _ _ _ Hmethod). cbn [bind].
    rewrite Hmethod. reflexivity. }
  intro Hmethod. split; [|split].
  - now apply Hlist.
  - reflexivity.
  - intros now' request' Hmethod'.
    rewrite (Hlist now' request' Hmethod'), (Hlist now request Hmethod).
    reflexivity.
Qed.

Lemma tools_list_of_bare_request :
  handleToolCall 0 (JObj [("method", JStr "tools/list")])
    = Normal (JObj [("tools", getTools)])
  /\ descriptor_names getTools
       = [JStr "hello"; JStr "echo"; JStr "get_time"; JStr "add_numbers"]
  /\ (forall (now' : Z) (request' : JsValue),
        Js.field request' "method" = JStr "tools/list" ->
        handleToolCall now' request'
          = handleToolCall 0 (JObj [("method", JStr "tools/list")])).
Proof.
  exact (tools_list_returns_registry 0 (JObj [("method", JStr "tools/list")])
           eq_refl).
Defined.

(** C5: a ['tools/call'] request for [add_numbers] with the numbers [a] and
    [b] returns the single text item ["<a> + <b> = <a+b>"], the sum being
    the sum of the two numbers; for 2 and 3 the text is ["2 + 3 = 5"]. *)
Theorem add_numbers_prints_sum (now : Z) (request : JsValue)
  (a b : Number.t) :
  Js.field request "method" = JStr "tools/call" ->
  Js.field (Js.field request "params") "name" = JStr "add_numbers" ->
  Js.field (Js.field (Js.field request "params") "arguments") "a" = JNum a ->
  Js.field (Js.field (Js.field request "params") "arguments") "b" = JNum b ->
  handleToolCall now request
    = Normal (JObj [("content",
      JArr [JObj [("type", JStr "text");
                  ("text",
                     JStr (Number.toString a ++ " + " ++ Number.toString b
                             ++ " = " ++ Number.toString (Number.add a b)))]])]).
Proof.
  intros Hmethod Hname Ha Hb.
  pose proof (field_string_not_nullish _ _ _ Hname) as Hparams.
  pose proof (field_number_not_nullish _ _ _ Ha) as Hargs.
  enter_call Hmethod Hparams.
  rewrite Hname. simpl Js.strict_eq_string. cbv iota.
  unfold Js.member. rewrite Hargs. cbn [bind]. rewrite Ha, Hb.
  reflexivity.
Qed.

Lemma add_numbers_2_3 :
  handleToolCall 0
    (call_request (JStr "add_numbers")
       (JObj [("a", JNum (Number.of_Z 2)); ("b", JNum (Number.of_Z 3))]))
  = Normal (JObj [("content",
      JArr [JObj [("type", JStr "text");
                  ("text", JStr "2 + 3 = 5")]])]).
Proof.
  exact (add_numbers_prints_sum 0
           (call_request (JStr "add_numbers")
              (JObj [("a", JNum (Number.of_Z 2));
                     ("b", JNum (Number.of_Z 3))]))
           (Number.of_Z 2) (Number.of_Z 3)
           eq_refl eq_refl eq_refl eq_refl).
Defined.

(** C8: [hello] with an arguments object that has no [name] still succeeds,
    with the text ["Hello, undefined! Welcome to the simple MCP server."];
    [echo] with an arguments object that has no [message] succeeds with
    ["Echo: undefined"]. *)
Theorem missing_field_prints_undefined (now : Z) (request : JsValue)
  (props : list (string * JsValue)) :
  Js.field request "method" = JStr "tools/call" ->
  Js.field (Js.field request "params") "arguments" = JObj props ->
  (Js.field (Js.field request "params") "name" = JStr "hello" ->
   Js.lookup "name" props = None ->
   handleToolCall now request
     = Normal (JObj [("content",
      JArr [JObj [("type", JStr "text");
                  ("text",
                     JStr
                       "Hello, undefined! Welcome to the simple MCP server.")]])]))
  /\ (Js.field (Js.field request "params") "name" = JStr "echo" ->
      Js.lookup "message" props = None ->
      handleToolCall now request = Normal (JObj [("content",
      JArr [JObj [("type", JStr "text");
                  ("text", JStr "Echo: undefined")]])])).
Proof.
  intros Hmethod Hargs.
  assert (Hparams : Js.nullish (Js.field request "params") = false).
  { apply (field_some_not_nullish _ "arguments"). rewrite Hargs. discriminate. }
  split; intros Hname Hmissing; enter_call Hmethod Hparams;
    rewrite Hname; simpl Js.strict_eq_string; cbv iota;
    rewrite Hargs; unfold Js.member; simpl; rewrite Hmissing; reflexivity.
Qed.

Lemma missing_field_on_empty_arguments :
  handleToolCall 0 (call_request (JStr "hello") (JObj []))
    = Normal (JObj [("content",
      JArr [JObj [("type", JStr "text");
                  ("text",
                     JStr
                       "Hello, undefined! Welcome to the simple MCP server.")]])])
  /\ handleToolCall 0 (call_request (JStr "echo") (JObj []))
       = Normal (JObj [("content",
      JArr [JObj [("type", JStr "text");
                  ("text", JStr "Echo: undefined")]])]).
Proof.
  split.
  - exact (proj1 (missing_field_prints_undefined 0
                    (call_request (JStr "hello") (JObj [])) []
                    eq_refl eq_refl) eq_refl eq_refl).
  - exact (proj2 (missing_field_prints_undefined 0
                    (call_request (JStr "echo") (JObj [])) []
                    eq_refl eq_refl) eq_refl eq_refl).
Defined.

(** C10: a ['tools/call'] request without [params] makes the destructuring of
    [params] throw a [TypeError], neither of the dispatcher's own two
    errors, and both POST routes answer it with status 500 and the body
    [{error: <message>}]. *)
Theorem call_without_params_throws_TypeError (now : Z) (request : JsValue) :
  Js.field request "method" = JStr "tools/call" ->
  Js.field request "params" = JUndefined ->
  let msg := Js.msg_destructure "name" "params" JUndefined in
  handleToolCall now request = Throw (TypeErrorObj msg)
  /\ (forall text, handleToolCall now request <> Throw (UnknownTool text))
  /\ (forall text, handleToolCall now request <> Throw (UnknownMethod text))
  /\ post_sse now request
       = {| status := 500; json := JObj [("error", JStr msg)] |}
  /\ post_mcp now request
       = {| status := 500; json := JObj [("error", JStr msg)] |}.
Proof.
  intros Hmethod Hparams msg.
  assert (Hthrow : handleToolCall now request = Throw (TypeErrorObj msg)).
  { unfold handleToolCall, Js.destructure.
    rewrite (field_string_not_nullish _ _ _ Hmethod). cbn [bind].
    rewrite Hmethod, Hparams. reflexivity. }
  unfold post_sse, post_mcp. rewrite Hthrow.
  repeat split; intros; discriminate.
Qed.

Lemma call_without_params_example :
  let request := JObj [("method", JStr "tools/call")] in
  let msg := Js.msg_destructure "name" "params" JUndefined in
  handleToolCall 0 request = Throw (TypeErrorObj msg)
  /\ (forall text, handleToolCall 0 request <> Throw (UnknownTool text))
  /\ (forall text, handleToolCall 0 request <> Throw (UnknownMethod text))
  /\ post_sse 0 request
       = {| status := 500; json := JObj [("error", JStr msg)] |}
  /\ post_mcp 0 request
       = {| status := 500; json := JObj [("error", JStr msg)] |}.
Proof.
  exact (call_without_params_throws_TypeError 0
           (JObj [("method", JStr "tools/call")]) eq_refl eq_refl).
Defined.

Ltac finish_branch :=
  intro Hdone; inversion Hdone; subst;
  solve [ eexists; reflexivity | discriminate ].

(** C4: whenever a ['tools/call'] request completes, for any tool and any
    arguments, the result is [{content: [item]}] with exactly one item, of
    type ["text"]. *)
Theorem successful_call_has_one_text_item (now : Z)
  (request result : JsValue) :
  Js.field request "method" = JStr "tools/call" ->
  handleToolCall now request = Normal result ->
  exists text : string,
    result
    = JObj [("content",
             JArr [JObj [("type", JStr "text"); ("text", JStr text)]])].
Proof.
  intros Hmethod.
  unfold handleToolCall, Js.destructure.
  rewrite (field_string_not_nullish _ _ _ Hmethod). cbn [bind].
  rewrite Hmethod. simpl Js.strict_eq_string. cbv iota.
  destruct (Js.nullish (Js.field request "params")); cbn [bind];
    [discriminate|].
  set (name := Js.field (Js.field request "params") "name").
  set (args := Js.field (Js.field request "params") "arguments").
  unfold Js.member, text_content.
  destruct (Js.strict_eq_string name "hello").
  { destruct (Js.nullish args); cbn [bind]; [discriminate|].
    destruct (Js.ToString (Js.field args "name")); cbn [bind];
      finish_branch. }
  destruct (Js.strict_eq_string name "echo").
  { destruct (Js.nullish args); cbn [bind]; [discriminate|].
    destruct (Js.ToString (Js.field args "message")); cbn [bind];
      finish_branch. }
  destruct (Js.strict_eq_string name "get_time").
  { finish_branch. }
  destruct (Js.strict_eq_string name "add_numbers").
  { destruct (Js.nullish args); cbn [bind]; [discriminate|].
    destruct (Js.plus (Js.field args "a") (Js.field args "b"));
      cbn [bind]; [|discriminate].
    destruct (Js.ToString (Js.field args "a")); cbn [bind]; [|discriminate].
    destruct (Js.ToString (Js.field args "b")); cbn [bind]; [|discriminate].
    destruct (Js.ToString a); cbn [bind]; finish_branch. }
  destruct (Js.ToString name); cbn [bind]; discriminate.
Qed.

Lemma successful_echo_has_one_text_item :
  exists text : string,
    JObj [("content",
           JArr [JObj [("type", JStr "text"); ("text", JStr "Echo: ping")]])]
    = JObj [("content",
             JArr [JObj [("type", JStr "text"); ("text", JStr text)]])].
Proof.
  exact (successful_call_has_one_text_item 0
           (call_request (JStr "echo") (JObj [("message", JStr "ping")]))
           (JObj [("content",
                   JArr [JObj [("type", JStr "text");
                               ("text", JStr "Echo: ping")]])])
           eq_refl eq_refl).
Defined.

(** A call for one of the four names may throw, but only a [TypeError] of
    the language, never an error of the dispatcher. *)
Lemma registered_call_throws_only_TypeError (now : Z) (request : JsValue)
  (e : JsError) :
  Js.field request "method" = JStr "tools/call" ->
  In (Js.field (Js.field request "params") "name")
     (descriptor_names getTools) ->
  handleToolCall now request = Throw e -> is_TypeError e.
Proof.
  intros Hmethod Hin.
  pose proof (field_some_not_nullish (Js.field request "params") "name")
    as Hparams.
  assert (Hp : Js.nullish (Js.field request "params") = false).
  { apply Hparams. simpl in Hin.
    destruct Hin as [H|[H|[H|[H|[]]]]]; rewrite <- H; discriminate. }
  enter_call Hmethod Hp.
  set (args := Js.field (Js.field request "params") "arguments").
  simpl in Hin.
  destruct Hin as [H|[H|[H|[H|[]]]]]; rewrite <- H;
    simpl Js.strict_eq_string; cbv iota.
  - destruct (Js.member args "name") eqn:E1; cbn [bind].
    + destruct (Js.ToString a) eqn:E2; cbn [bind]; [discriminate|].
      intro H0; inversion H0; subst.
      now apply (ToString_throws_TypeError a).
    + intro H0; inversion H0; subst.
      now apply (member_throws_TypeError args "name").
  - destruct (Js.member args "message") eqn:E1; cbn [bind].
    + destruct (Js.ToString a) eqn:E2; cbn [bind]; [discriminate|].
      intro H0; inversion H0; subst.
      now apply (ToString_throws_TypeError a).
    + intro H0; inversion H0; subst.
      now apply (member_throws_TypeError args "message").
  - discriminate.
  - destruct (Js.member args "a") as [a|ea] eqn:Ea; cbn [bind].
    2:{ intro H0; inversion H0; subst.
        now apply (member_throws_TypeError args "a"). }
    destruct (Js.member args "b") as [b|eb] eqn:Eb; cbn [bind].
    2:{ intro H0; inversion H0; subst.
        now apply (member_throws_TypeError args "b"). }
    destruct (Js.plus a b) as [r|er] eqn:Er; cbn [bind].
    2:{ intro H0; inversion H0; subst.
        now apply (plus_throws_TypeError a b). }
    destruct (Js.ToString a) as [sa|esa] eqn:Esa; cbn [bind].
    2:{ intro H0; inversion H0; subst.
        now apply (ToString_throws_TypeError a). }
    destruct (Js.ToString b) as [sb|esb] eqn:Esb; cbn [bind].
    2:{ intro H0; inversion H0; subst.
        now apply (ToString_throws_TypeError b). }
    destruct (Js.ToString r) as [sr|esr] eqn:Esr; cbn [bind];
      [discriminate|].
    intro H0; inversion H0; subst.
    now apply (ToString_throws_TypeError r).
Qed.

(** A call for any other name reaches the [default] branch, which converts
    the name to a string for the message of its error. *)
Lemma unregistered_call_reaches_default (now : Z) (request : JsValue) :
  Js.field request "method" = JStr "tools/call" ->
  Js.nullish (Js.field request "params") = false ->
  ~ In (Js.field (Js.field request "params") "name")
       (descriptor_names getTools) ->
  handleToolCall now request
  = (name_text <- Js.ToString (Js.field (Js.field request "params") "name") ;;
     Throw (UnknownTool name_text)).
Proof.
  intros Hmethod Hparams Hout.
  enter_call Hmethod Hparams.
  set (name := Js.field (Js.field request "params") "name") in *.
  simpl in Hout.
  assert (H1 : Js.strict_eq_string name "hello" = false).
  { apply strict_eq_string_false. intro H. apply Hout. rewrite H. tauto. }
  assert (H2 : Js.strict_eq_string name "echo" = false).
  { apply strict_eq_string_false. intro H. apply Hout. rewrite H. tauto. }
  assert (H3 : Js.strict_eq_string name "get_time" = false).
  { apply strict_eq_string_false. intro H. apply Hout. rewrite H. tauto. }
  assert (H4 : Js.strict_eq_string name "add_numbers" = false).
  { apply strict_eq_string_false. intro H. apply Hout. rewrite H. tauto. }
  rewrite H1, H2, H3, H4. reflexivity.
Qed.

(** C7: the names the [switch] handles are the names of the registry: a
    ['tools/call'] request for the name [n] avoids the unknown-tool error
    exactly when [n] is the name of a descriptor of [getTools()]. *)
Theorem handled_names_are_registry_names (now : Z) (request : JsValue)
  (n : string) :
  Js.field request "method" = JStr "tools/call" ->
  Js.field (Js.field request "params") "name" = JStr n ->
  (forall text, handleToolCall now request <> Throw (UnknownTool text))
  <-> In (JStr n) (descriptor_names getTools).
Proof.
  intros Hmethod Hname. split.
  - intro Hnever.
    destruct (in_dec
      (fun x y : string => string_dec x y)
      n ["hello"; "echo"; "get_time"; "add_numbers"]) as [Hin|Hout].
    + simpl in Hin. simpl.
      destruct Hin as [H|[H|[H|[H|[]]]]]; subst n; tauto.
    + exfalso. apply (Hnever n).
      rewrite unregistered_call_reaches_default.
      * rewrite Hname. reflexivity.
      * exact Hmethod.
      * apply (field_string_not_nullish _ _ _ Hname).
      * rewrite Hname. simpl. intro Hin. apply Hout. simpl.
        destruct Hin as [H|[H|[H|[H|[]]]]]; inversion H; tauto.
  - intros Hin text Hthrow.
    rewrite <- Hname in Hin.
    destruct (registered_call_throws_only_TypeError now request
                (UnknownTool text) Hmethod Hin Hthrow) as [m Hm].
    discriminate Hm.
Qed.

Lemma handled_name_get_time :
  (forall text,
     handleToolCall 0 (call_request (JStr "get_time") (JObj []))
       <> Throw (UnknownTool text))
  <-> In (JStr "get_time") (descriptor_names getTools).
Proof.
  exact (handled_names_are_registry_names 0
           (call_request (JStr "get_time") (JObj [])) "get_time"
           eq_refl eq_refl).
Defined.

(** C2, as the code has it: a ['tools/call'] request with [params] whose
    [name] is none of the four registered names reaches the [default]
    branch.  When the name converts to a string, the dispatcher throws the
    unknown-tool error carrying that string; when the conversion itself
    throws, that [TypeError] is what the dispatcher throws.  Both POST
    routes answer with status 500 and the body [{error: <message>}]. *)
Theorem unregistered_name_is_rejected (now : Z) (request : JsValue) :
  Js.field request "method" = JStr "tools/call" ->
  Js.nullish (Js.field request "params") = false ->
  ~ In (Js.field (Js.field request "params") "name")
       (descriptor_names getTools) ->
  let name := Js.field (Js.field request "params") "name" in
  (forall name_text, Js.ToString name = Normal name_text ->
     handleToolCall now request = Throw (UnknownTool name_text)
     /\ post_sse now request
        = {| status := 500;
             json := JObj [("error", JStr ("Unknown tool: " ++ name_text))] |}
     /\ post_mcp now request
        = {| status := 500;
             json := JObj [("error", JStr ("Unknown tool: " ++ name_text))] |})
  /\ (forall e, Js.ToString name = Throw e ->
        handleToolCall now request = Throw e
        /\ is_TypeError e
        /\ post_sse now request
           = {| status := 500; json := JObj [("error", JStr (message e))] |}
        /\ post_mcp now request
           = {| status := 500; json := JObj [("error", JStr (message e))] |}).
Proof.
  intros Hmethod Hparams Hout name.
  pose proof (unregistered_call_reaches_default now request
                Hmethod Hparams Hout) as Hdefault.
  fold name in Hdefault.
  split.
  - intros name_text Htext.
    rewrite Htext in Hdefault. cbn [bind] in Hdefault.
    unfold post_sse, post_mcp. rewrite Hdefault. repeat split.
  - intros e Hthrow.
    rewrite Hthrow in Hdefault. cbn [bind] in Hdefault.
    unfold post_sse, post_mcp. rewrite Hdefault. repeat split.
    now apply (ToString_throws_TypeError name).
Qed.

Lemma unregistered_name_nope :
  handleToolCall 0 (call_request (JStr "nope") (JObj []))
    = Throw (UnknownTool "nope")
  /\ post_sse 0 (call_request (JStr "nope") (JObj []))
     = {| status := 500;
          json := JObj [("error", JStr "Unknown tool: nope")] |}
  /\ post_mcp 0 (call_request (JStr "nope") (JObj []))
     = {| status := 500;
          json := JObj [("error", JStr "Unknown tool: nope")] |}.
Proof.
  refine (proj1 (unregistered_name_is_rejected 0
                   (call_request (JStr "nope") (JObj []))
                   eq_refl eq_refl _) "nope" eq_refl).
  simpl. intros [H|[H|[H|[H|[]]]]]; discriminate H.
Defined.

(** C2 as stated fails: the name [{toString: 1}] is none of the four, yet
    the dispatcher throws a [TypeError], not the unknown-tool error. *)
Lemma unregistered_object_name_throws_TypeError :
  let request :=
    call_request (JObj [("toString", JNum (Number.of_Z 1))]) (JObj []) in
  Js.field request "method" = JStr "tools/call"
  /\ ~ In (Js.field (Js.field request "params") "name")
          (descriptor_names getTools)
  /\ handleToolCall 0 request = Throw (TypeErrorObj Js.msg_to_primitive)
  /\ ~ (exists text, handleToolCall 0 request = Throw (UnknownTool text)).
Proof.
  cbv zeta. split; [reflexivity|]. split; [|split].
  - simpl. intros [H|[H|[H|[H|[]]]]]; discriminate H.
  - reflexivity.
  - intros [text H]. discriminate H.
Qed.

(** C6, as the code has it: a request whose [method] is neither
    ['tools/list'] nor ['tools/call'] is refused whatever its [params].
    When the method converts to a string, the dispatcher throws the
    unknown-method error carrying that string; when the conversion itself
    throws, that [TypeError] is what the dispatcher throws. *)
Theorem other_method_is_rejected (now : Z) (request : JsValue) :
  Js.nullish request = false ->
  Js.field request "method" <> JStr "tools/list" ->
  Js.field request "method" <> JStr "tools/call" ->
  let method := Js.field request "method" in
  (forall method_text, Js.ToString method = Normal method_text ->
     handleToolCall now request = Throw (UnknownMethod method_text))
  /\ (forall e, Js.ToString method = Throw e ->
        handleToolCall now request = Throw e /\ is_TypeError e).
Proof.
  intros Hrequest Hlist Hcall method.
  assert (Hdefault : handleToolCall now request
            = (method_text <- Js.ToString method ;;
               Throw (UnknownMethod method_text))).
  { unfold handleToolCall, Js.destructure. rewrite Hrequest. cbn [bind].
    apply strict_eq_string_false in Hlist, Hcall.
    rewrite Hlist, Hcall. reflexivity. }
  split.
  - intros method_text Htext. rewrite Hdefault, Htext. reflexivity.
  - intros e Hthrow. rewrite Hdefault, Hthrow. split; [reflexivity|].
    now apply (ToString_throws_TypeError method).
Qed.

Lemma other_method_ping :
  handleToolCall 0 (JObj [("method", JStr "ping"); ("params", JNull)])
    = Throw (UnknownMethod "ping").
Proof.
  refine (proj1 (other_method_is_rejected 0
                   (JObj [("method", JStr "ping"); ("params", JNull)])
                   eq_refl _ _) "ping" eq_refl);
    simpl; discriminate.
Defined.

(** C6 as stated fails: the method [{toString: 1}] is neither of the two
    strings, yet the dispatcher throws a [TypeError], not the
    unknown-method error. *)
Lemma object_method_throws_TypeError :
  let request := JObj [("method", JObj [("toString", JNum (Number.of_Z 1))])] in
  Js.field request "method" <> JStr "tools/list"
  /\ Js.field request "method" <> JStr "tools/call"
  /\ handleToolCall 0 request = Throw (TypeErrorObj Js.msg_to_primitive)
  /\ ~ (exists text, handleToolCall 0 request = Throw (UnknownMethod text)).
Proof.
  cbv zeta. repeat split; try (simpl; discriminate).
  intros [text H]. discriminate H.
Qed.

(** ** The event stream *)

Module SseFacts.

Import Sse.

Lemma get_sse_streaming (accepted : Z) (closing : option Z) :
  get_sse accepted closing = streaming accepted closing 0.
Proof.
  unfold get_sse, streaming.
  replace (accepted + 15000 * Z.of_nat 0) with accepted by (simpl; lia).
  replace (accepted + 15000 * (Z.of_nat 0 + 1)) with (accepted + 15000)
    by (simpl; lia).
  reflexivity.
Qed.

Lemma keep_alives_succ (accepted : Z) (j : nat) :
  keep_alives accepted (S j)
  = (keep_alives accepted j
       ++ [(accepted + 15000 * Z.of_nat (S j), keep_alive_frame)])%list.
Proof.
  unfold keep_alives. rewrite seq_S, map_app. reflexivity.
Qed.

Lemma deliver_timer (accepted : Z) (closing : option Z) (j : nat) :
  deliver (streaming accepted closing j)
          (TimerDue (accepted + 15000 * (Z.of_nat j + 1)))
  = streaming accepted closing (S j).
Proof.
  unfold deliver, on_interval, streaming, write. cbn [clock res interval
    close_listener peer_close head written ended].
  rewrite keep_alives_succ, app_assoc.
  replace (Z.of_nat (S j)) with (Z.of_nat j + 1) by lia.
  f_equal. do 2 f_equal. lia.
Qed.

Lemma next_event_streaming_open (accepted : Z) (closing : option Z)
  (j : nat) :
  (forall c, closing = Some c -> accepted + 15000 * (Z.of_nat j + 1) <= c) ->
  next_event (streaming accepted closing j)
  = Some (TimerDue (accepted + 15000 * (Z.of_nat j + 1))).
Proof.
  intro Hopen. unfold next_event, streaming. cbn [interval peer_close].
  destruct closing as [c|]; [|reflexivity].
  specialize (Hopen c eq_refl).
  destruct (Z.leb_spec (accepted + 15000 * (Z.of_nat j + 1)) c);
    [reflexivity|lia].
Qed.

Lemma next_event_streaming_close (accepted c : Z) (j : nat) :
  c < accepted + 15000 * (Z.of_nat j + 1) ->
  next_event (streaming accepted (Some c) j) = Some (PeerClose c).
Proof.
  intro Hlate. unfold next_event, streaming. cbn [interval peer_close].
  destruct (Z.leb_spec (accepted + 15000 * (Z.of_nat j + 1)) c);
    [lia|reflexivity].
Qed.

Lemma deliver_close (accepted c : Z) (j : nat) :
  deliver (streaming accepted (Some c) j) (PeerClose c)
  = closed accepted c j.
Proof. reflexivity. Qed.

Lemma run_quiet (turns : nat) (l : Loop) :
  next_event l = None -> run turns l = l.
Proof.
  intro Hquiet. destruct turns; simpl; [reflexivity|].
  rewrite Hquiet. reflexivity.
Qed.

Lemma run_add (a b : nat) (l : Loop) :
  run (a + b) l = run b (run a l).
Proof.
  revert l. induction a as [|a IH]; intro l; simpl; [reflexivity|].
  destruct (next_event l) as [ev|] eqn:E.
  - apply IH.
  - symmetry. now apply run_quiet.
Qed.

(** While the peer stays, every turn of the loop is one firing of the
    timer. *)
Lemma run_streaming (accepted : Z) (closing : option Z) (n j : nat) :
  (forall c, closing = Some c ->
     accepted + 15000 * Z.of_nat (j + n) <= c) ->
  run n (streaming accepted closing j) = streaming accepted closing (j + n).
Proof.
  revert j. induction n as [|n IH]; intros j Hopen.
  - rewrite Nat.add_0_r. reflexivity.
  - simpl. rewrite next_event_streaming_open.
    + rewrite deliver_timer, IH.
      * f_equal. lia.
      * intros c Hc. specialize (Hopen c Hc).
        replace (S j + n)%nat with (j + S n)%nat by lia. exact Hopen.
    + intros c Hc. specialize (Hopen c Hc). lia.
Qed.

(** Once the close time is passed, the next turn runs the listener and
    the loop has nothing left to deliver. *)
Lemma run_past_close (accepted c : Z) (m : nat) :
  accepted <= c ->
  let N := Z.to_nat ((c - accepted) / 15000) in
  run (N + S m) (streaming accepted (Some c) 0) = closed accepted c N.
Proof.
  intros Hc N.
  assert (Hdiv : 0 <= (c - accepted) / 15000) by (apply Z.div_pos; lia).
  assert (Hlow : 15000 * ((c - accepted) / 15000) <= c - accepted)
    by (apply Z.mul_div_le; lia).
  assert (Hhigh : c - accepted < 15000 * ((c - accepted) / 15000 + 1)).
  { pose proof (Z.mod_pos_bound (c - accepted) 15000 ltac:(lia)).
    pose proof (Z.div_mod (c - accepted) 15000 ltac:(lia)). lia. }
  rewrite run_add, run_streaming.
  - simpl (0 + N)%nat. simpl run.
    rewrite next_event_streaming_close by (unfold N; lia).
    rewrite deliver_close. now apply run_quiet.
  - intros c' Hc'. inversion Hc'; subst c'. simpl (0 + N)%nat.
    unfold N. lia.
Qed.

End SseFacts.

(** C9: on every accepted SSE connection the writes start with exactly two
    data frames, written when the handler runs: the [initialized]
    notification with empty [params], then the [tools/list] notification
    whose [params] hold the array of [getTools()]; both are written out
    below as they go on the wire, [data: <JSON>] and an empty line.  After
    them come keep-alive comment frames only, [: keep-alive] and an empty
    line, the [k]-th one 15000 ms times [k] after the accept, for as long
    as the peer stays; when the peer closes, the timer is cleared, the
    response is ended and nothing more is written. *)
Theorem sse_stream_is_two_frames_then_keep_alives
  (accepted : Z) (closing : option Z) (turns : nat) :
  (forall c, closing = Some c -> accepted <= c) ->
  let l := Sse.run turns (Sse.get_sse accepted closing) in
  let n := Sse.beats accepted closing turns in
  let q := String "034"%char EmptyString in
  let nl := String "010"%char EmptyString in
  let init_frame :=
       "data: {" ++ q ++ "jsonrpc" ++ q ++ ":" ++ q ++ "2.0" ++ q ++ "," ++ q
       ++ "method" ++ q ++ ":" ++ q ++ "notifications/initialized" ++ q ++ ","
       ++ q ++ "params" ++ q ++ ":{}}" ++ nl ++ nl in
  let tools_frame :=
       "data: {" ++ q ++ "jsonrpc" ++ q ++ ":" ++ q ++ "2.0" ++ q ++ "," ++ q
       ++ "method" ++ q ++ ":" ++ q ++ "tools/list" ++ q ++ "," ++ q
       ++ "params" ++ q ++ ":{" ++ q ++ "tools" ++ q ++ ":[{" ++ q ++ "name"
       ++ q ++ ":" ++ q ++ "hello" ++ q ++ "," ++ q ++ "description" ++ q
       ++ ":" ++ q ++ "Say hello to someone" ++ q ++ "," ++ q ++ "inputSchema"
       ++ q ++ ":{" ++ q ++ "type" ++ q ++ ":" ++ q ++ "object" ++ q ++ ","
       ++ q ++ "properties" ++ q ++ ":{" ++ q ++ "name" ++ q ++ ":{" ++ q
       ++ "type" ++ q ++ ":" ++ q ++ "string" ++ q ++ "," ++ q
       ++ "description" ++ q ++ ":" ++ q ++ "Name of the person to greet" ++ q
       ++ "}}," ++ q ++ "required" ++ q ++ ":[" ++ q ++ "name" ++ q ++ "]}},{"
       ++ q ++ "name" ++ q ++ ":" ++ q ++ "echo" ++ q ++ "," ++ q
       ++ "description" ++ q ++ ":" ++ q ++ "Echo back the input message" ++ q
       ++ "," ++ q ++ "inputSchema" ++ q ++ ":{" ++ q ++ "type" ++ q ++ ":"
       ++ q ++ "object" ++ q ++ "," ++ q ++ "properties" ++ q ++ ":{" ++ q
       ++ "message" ++ q ++ ":{" ++ q ++ "type" ++ q ++ ":" ++ q ++ "string"
       ++ q ++ "," ++ q ++ "description" ++ q ++ ":" ++ q
       ++ "Message to echo back" ++ q ++ "}}," ++ q ++ "required" ++ q ++ ":["
       ++ q ++ "message" ++ q ++ "]}},{" ++ q ++ "name" ++ q ++ ":" ++ q
       ++ "get_time" ++ q ++ "," ++ q ++ "description" ++ q ++ ":" ++ q
       ++ "Get the current time" ++ q ++ "," ++ q ++ "inputSchema" ++ q
       ++ ":{" ++ q ++ "type" ++ q ++ ":" ++ q ++ "object" ++ q ++ "," ++ q
       ++ "properties" ++ q ++ ":{}," ++ q ++ "required" ++ q ++ ":[]}},{"
       ++ q ++ "name" ++ q ++ ":" ++ q ++ "add_numbers" ++ q ++ "," ++ q
       ++ "description" ++ q ++ ":" ++ q ++ "Add two numbers together" ++ q
       ++ "," ++ q ++ "inputSchema" ++ q ++ ":{" ++ q ++ "type" ++ q ++ ":"
       ++ q ++ "object" ++ q ++ "," ++ q ++ "properties" ++ q ++ ":{" ++ q
       ++ "a" ++ q ++ ":{" ++ q ++ "type" ++ q ++ ":" ++ q ++ "number" ++ q
       ++ "," ++ q ++ "description" ++ q ++ ":" ++ q ++ "First number" ++ q
       ++ "}," ++ q ++ "b" ++ q ++ ":{" ++ q ++ "type" ++ q ++ ":" ++ q
       ++ "number" ++ q ++ "," ++ q ++ "description" ++ q ++ ":" ++ q
       ++ "Second number" ++ q ++ "}}," ++ q ++ "required" ++ q ++ ":[" ++ q
       ++ "a" ++ q ++ "," ++ q ++ "b" ++ q ++ "]}}]}}" ++ nl ++ nl in
  let keep_alive := ": keep-alive" ++ nl ++ nl in
  Sse.written (Sse.res l)
    = (accepted, init_frame)
        :: (accepted, tools_frame)
        :: map (fun k => (accepted + 15000 * Z.of_nat k, keep_alive))
               (seq 1 n)
  /\ tools_frame
     = "data: "
         ++ JSON.stringify_text
              (JObj [("jsonrpc", JStr "2.0");
                     ("method", JStr "tools/list");
                     ("params", JObj [("tools", getTools)])])
         ++ nl ++ nl
  /\ Js.field Sse.initMessage "method" = JStr "notifications/initialized"
  /\ Js.field Sse.initMessage "params" = JObj []
  /\ Js.field (Sse.toolsMessage getTools) "method" = JStr "tools/list"
  /\ Js.field (Sse.toolsMessage getTools) "params"
       = JObj [("tools", getTools)]
  /\ (n = turns ->
        Sse.ended (Sse.res l) = false
        /\ Sse.interval l
             = Some (15000, accepted + 15000 * (Z.of_nat n + 1)))
  /\ ((n < turns)%nat ->
        Sse.ended (Sse.res l) = true
        /\ Sse.interval l = None
        /\ Sse.next_event l = None).
Proof.
  intros Hafter l n q nl init_frame tools_frame keep_alive.
  assert (Hshape :
    (n = turns /\ l = Sse.streaming accepted closing turns)
    \/ ((n < turns)%nat /\ exists c, l = Sse.closed accepted c n)).
  { subst l n. rewrite SseFacts.get_sse_streaming.
    destruct closing as [c|]; cbn [Sse.beats].
    - specialize (Hafter c eq_refl).
      set (N := Z.to_nat ((c - accepted) / 15000)).
      assert (Hdiv : 0 <= (c - accepted) / 15000) by (apply Z.div_pos; lia).
      assert (Hlow : 15000 * ((c - accepted) / 15000) <= c - accepted)
        by (apply Z.mul_div_le; lia).
      destruct (le_lt_dec turns N) as [Hfew|Hmany].
      + left. rewrite Nat.min_l by exact Hfew. split; [reflexivity|].
        rewrite SseFacts.run_streaming; [reflexivity|].
        intros c' Hc'. inversion Hc'; subst c'. simpl (0 + turns)%nat.
        unfold N in Hfew. lia.
      + right. rewrite Nat.min_r by lia. split; [exact Hmany|].
        exists c.
        replace turns with (N + S (turns - N - 1))%nat by lia.
        now apply SseFacts.run_past_close.
    - left. split; [reflexivity|].
      rewrite SseFacts.run_streaming by (intros c Hc; discriminate Hc).
      reflexivity. }
  assert (Hinit : Sse.data_frame Sse.initMessage = init_frame)
    by (vm_compute; reflexivity).
  assert (Htools : Sse.data_frame (Sse.toolsMessage getTools) = tools_frame)
    by (vm_compute; reflexivity).
  assert (Hbeat : Sse.keep_alive_frame = keep_alive)
    by (vm_compute; reflexivity).
  assert (Hwritten : forall j,
    (Sse.opening accepted ++ Sse.keep_alives accepted j)%list
    = (accepted, init_frame)
        :: (accepted, tools_frame)
        :: map (fun k => (accepted + 15000 * Z.of_nat k, keep_alive))
               (seq 1 j)).
  { intro j. unfold Sse.opening, Sse.keep_alives.
    rewrite Hinit, Htools, Hbeat. reflexivity. }
  clearbody l n init_frame tools_frame keep_alive.
  destruct Hshape as [[Hn Hl]|[Hn [c Hl]]]; subst l.
  - rewrite Hn. split; [apply Hwritten|].
    split; [symmetry; exact Htools|].
    do 4 (split; [reflexivity|]). split.
    + intros _. split; reflexivity.
    + intro Hlt. lia.
  - split; [apply Hwritten|].
    split; [symmetry; exact Htools|].
    do 4 (split; [reflexivity|]). split.
    + intro Heq. lia.
    + intros _. repeat split.
Qed.

Lemma sse_stream_closed_after_40_seconds :
  let l := Sse.run 5 (Sse.get_sse 0 (Some 40000)) in
  let q := String "034"%char EmptyString in
  let nl := String "010"%char EmptyString in
  let init_frame :=
       "data: {" ++ q ++ "jsonrpc" ++ q ++ ":" ++ q ++ "2.0" ++ q ++ "," ++ q
       ++ "method" ++ q ++ ":" ++ q ++ "notifications/initialized" ++ q ++ ","
       ++ q ++ "params" ++ q ++ ":{}}" ++ nl ++ nl in
  let tools_frame :=
       "data: {" ++ q ++ "jsonrpc" ++ q ++ ":" ++ q ++ "2.0" ++ q ++ "," ++ q
       ++ "method" ++ q ++ ":" ++ q ++ "tools/list" ++ q ++ "," ++ q
       ++ "params" ++ q ++ ":{" ++ q ++ "tools" ++ q ++ ":[{" ++ q ++ "name"
       ++ q ++ ":" ++ q ++ "hello" ++ q ++ "," ++ q ++ "description" ++ q
       ++ ":" ++ q ++ "Say hello to someone" ++ q ++ "," ++ q ++ "inputSchema"
       ++ q ++ ":{" ++ q ++ "type" ++ q ++ ":" ++ q ++ "object" ++ q ++ ","
       ++ q ++ "properties" ++ q ++ ":{" ++ q ++ "name" ++ q ++ ":{" ++ q
       ++ "type" ++ q ++ ":" ++ q ++ "string" ++ q ++ "," ++ q
       ++ "description" ++ q ++ ":" ++ q ++ "Name of the person to greet" ++ q
       ++ "}}," ++ q ++ "required" ++ q ++ ":[" ++ q ++ "name" ++ q ++ "]}},{"
       ++ q ++ "name" ++ q ++ ":" ++ q ++ "echo" ++ q ++ "," ++ q
       ++ "description" ++ q ++ ":" ++ q ++ "Echo back the input message" ++ q
       ++ "," ++ q ++ "inputSchema" ++ q ++ ":{" ++ q ++ "type" ++ q ++ ":"
       ++ q ++ "object" ++ q ++ "," ++ q ++ "properties" ++ q ++ ":{" ++ q
       ++ "message" ++ q ++ ":{" ++ q ++ "type" ++ q ++ ":" ++ q ++ "string"
       ++ q ++ "," ++ q ++ "description" ++ q ++ ":" ++ q
       ++ "Message to echo back" ++ q ++ "}}," ++ q ++ "required" ++ q ++ ":["
       ++ q ++ "message" ++ q ++ "]}},{" ++ q ++ "name" ++ q ++ ":" ++ q
       ++ "get_time" ++ q ++ "," ++ q ++ "description" ++ q ++ ":" ++ q
       ++ "Get the current time" ++ q ++ "," ++ q ++ "inputSchema" ++ q
       ++ ":{" ++ q ++ "type" ++ q ++ ":" ++ q ++ "object" ++ q ++ "," ++ q
       ++ "properties" ++ q ++ ":{}," ++ q ++ "required" ++ q ++ ":[]}},{"
       ++ q ++ "name" ++ q ++ ":" ++ q ++ "add_numbers" ++ q ++ "," ++ q
       ++ "description" ++ q ++ ":" ++ q ++ "Add two numbers together" ++ q
       ++ "," ++ q ++ "inputSchema" ++ q ++ ":{" ++ q ++ "type" ++ q ++ ":"
       ++ q ++ "object" ++ q ++ "," ++ q ++ "properties" ++ q ++ ":{" ++ q
       ++ "a" ++ q ++ ":{" ++ q ++ "type" ++ q ++ ":" ++ q ++ "number" ++ q
       ++ "," ++ q ++ "description" ++ q ++ ":" ++ q ++ "First number" ++ q
       ++ "}," ++ q ++ "b" ++ q ++ ":{" ++ q ++ "type" ++ q ++ ":" ++ q
       ++ "number" ++ q ++ "," ++ q ++ "description" ++ q ++ ":" ++ q
       ++ "Second number" ++ q ++ "}}," ++ q ++ "required" ++ q ++ ":[" ++ q
       ++ "a" ++ q ++ "," ++ q ++ "b" ++ q ++ "]}}]}}" ++ nl ++ nl in
  let keep_alive := ": keep-alive" ++ nl ++ nl in
  Sse.written (Sse.res l)
    = [(0, init_frame); (0, tools_frame);
       (15000, keep_alive); (30000, keep_alive)]
  /\ Sse.ended (Sse.res l) = true
  /\ Sse.interval l = None
  /\ Sse.next_event l = None.
Proof.
  assert (Hafter : forall c, Some 40000 = Some c -> 0 <= c).
  { intros c Hc. inversion Hc. lia. }
  pose proof (sse_stream_is_two_frames_then_keep_alives 0 (Some 40000) 5
                Hafter) as H.
  cbv zeta in H.
  destruct H as (Hwritten & _ & _ & _ & _ & _ & _ & Hclosed).
  split; [exact Hwritten|].
  apply Hclosed. vm_compute. lia.
Defined.


(** * Further properties of the server *)

(** ** The tool branches *)

(** X1: a ['tools/call'] request for [echo] whose arguments carry the
    string [s] under [message] returns the single text item
    ["Echo: <s>"]. *)
Theorem echo_returns_message (now : Z) (request : JsValue) (s : string) :
  Js.field request "method" = JStr "tools/call" ->
  Js.field (Js.field request "params") "name" = JStr "echo" ->
  Js.field (Js.field (Js.field request "params") "arguments") "message"
    = JStr s ->
  handleToolCall now request = Normal (JObj [("content",
      JArr [JObj [("type", JStr "text");
                  ("text", JStr ("Echo: " ++ s))]])]).
Proof.
  intros Hmethod Hname Hmsg.
  pose proof (field_string_not_nullish _ _ _ Hname) as Hparams.
  pose proof (field_string_not_nullish _ _ _ Hmsg) as Hargs.
  enter_call Hmethod Hparams.
  rewrite Hname. simpl Js.strict_eq_string. cbv iota.
  unfold Js.member. rewrite Hargs. cbn [bind]. rewrite Hmsg.
  reflexivity.
Qed.

Lemma echo_returns_ping :
  handleToolCall 0
    (call_request (JStr "echo") (JObj [("message", JStr "ping")]))
  = Normal (JObj [("content",
      JArr [JObj [("type", JStr "text");
                  ("text", JStr "Echo: ping")]])]).
Proof.
  exact (echo_returns_message 0
           (call_request (JStr "echo") (JObj [("message", JStr "ping")]))
           "ping" eq_refl eq_refl eq_refl).
Defined.

(** X2: when [params.arguments] is missing or [null], the three tools that
    read a property of it throw a [TypeError] at their first read
    ([name], [message], [a]); [get_time] reads nothing and succeeds. *)
Theorem call_without_arguments (now : Z) (request : JsValue) :
  Js.field request "method" = JStr "tools/call" ->
  Js.nullish (Js.field request "params") = false ->
  Js.nullish (Js.field (Js.field request "params") "arguments") = true ->
  let name := Js.field (Js.field request "params") "name" in
  let args := Js.field (Js.field request "params") "arguments" in
  (name = JStr "hello" ->
     handleToolCall now request
       = Throw (TypeErrorObj (Js.msg_read "name" args)))
  /\ (name = JStr "echo" ->
        handleToolCall now request
          = Throw (TypeErrorObj (Js.msg_read "message" args)))
  /\ (name = JStr "add_numbers" ->
        handleToolCall now request
          = Throw (TypeErrorObj (Js.msg_read "a" args)))
  /\ (name = JStr "get_time" ->
        handleToolCall now request
          = Normal (text_content
              ("Current time: " ++ Date.toISOString now))).
Proof.
  intros Hmethod Hparams Hargs name args.
  repeat split; intro Hname; enter_call Hmethod Hparams;
    fold name; rewrite Hname; simpl Js.strict_eq_string; cbv iota;
    unfold Js.member; try rewrite Hargs; reflexivity.
Qed.

Lemma call_without_arguments_example :
  handleToolCall 0
    (JObj [("method", JStr "tools/call");
           ("params", JObj [("name", JStr "hello")])])
  = Throw (TypeErrorObj (Js.msg_read "name" JUndefined)).
Proof.
  exact (proj1 (call_without_arguments 0
                  (JObj [("method", JStr "tools/call");
                         ("params", JObj [("name", JStr "hello")])])
                  eq_refl eq_refl eq_refl) eq_refl).
Defined.

(** A value that converts to a string converts to a primitive with the
    same text. *)
Lemma ToPrimitive_of_ToString (v : JsValue) (s : string) :
  Js.ToString v = Normal s ->
  exists p, Js.ToPrimitive v = Normal p /\ Js.prim_to_string p = s
            /\ (Kind.is_primitive v = false -> p = Js.PStr s)
            /\ (Kind.is_string v = true -> p = Js.PStr s).
Proof.
  intro Hs. destruct v; simpl in Hs |- *.
  - inversion Hs; subst. eexists; repeat split; discriminate.
  - inversion Hs; subst. eexists; repeat split; discriminate.
  - destruct b; inversion Hs; subst; eexists; repeat split; discriminate.
  - inversion Hs; subst. eexists; repeat split; discriminate.
  - inversion Hs; subst. eexists; repeat split; reflexivity.
  - rewrite Hs. cbn [bind]. eexists; repeat split; reflexivity.
  - destruct (Js.has_own "toString" props); [discriminate|].
    inversion Hs; subst. cbn [bind]. eexists; repeat split; reflexivity.
Qed.

Lemma string_operand_concatenates (a b : JsValue) (sa sb : string) :
  Kind.is_string a = true \/ Kind.is_string b = true ->
  Js.ToString a = Normal sa -> Js.ToString b = Normal sb ->
  Js.plus a b = Normal (JStr (sa ++ sb)).
Proof.
  intros Hstr Ha Hb.
  destruct (ToPrimitive_of_ToString a sa Ha) as (pa & Hpa & Hta & _ & Hsa).
  destruct (ToPrimitive_of_ToString b sb Hb) as (pb & Hpb & Htb & _ & Hsb).
  unfold Js.plus. rewrite Hpa, Hpb. cbn [bind].
  destruct Hstr as [H|H].
  - rewrite (Hsa H). cbn [Js.prim_to_number]. rewrite <- Htb. reflexivity.
  - rewrite (Hsb H). destruct (Js.prim_to_number pa);
      cbn [Js.prim_to_number]; rewrite <- Hta; reflexivity.
Qed.

(** X3: [add_numbers] does not guard the types of its operands: as soon as
    one of [a] and [b] is a string, the result is the concatenation of the
    two operands as text, ["<a> + <b> = <a><b>"]. *)
Theorem add_numbers_concatenates_strings (now : Z) (request : JsValue)
  (sa sb : string) :
  Js.field request "method" = JStr "tools/call" ->
  Js.field (Js.field request "params") "name" = JStr "add_numbers" ->
  let args := Js.field (Js.field request "params") "arguments" in
  Js.nullish args = false ->
  Kind.is_string (Js.field args "a") = true
    \/ Kind.is_string (Js.field args "b") = true ->
  Js.ToString (Js.field args "a") = Normal sa ->
  Js.ToString (Js.field args "b") = Normal sb ->
  handleToolCall now request
    = Normal (JObj [("content",
      JArr [JObj [("type", JStr "text");
                  ("text", JStr (sa ++ " + " ++ sb ++ " = " ++ sa ++ sb))]])]).
Proof.
  intros Hmethod Hname args Hargs Hstr Ha Hb.
  pose proof (field_string_not_nullish _ _ _ Hname) as Hparams.
  enter_call Hmethod Hparams.
  rewrite Hname. simpl Js.strict_eq_string. cbv iota.
  unfold Js.member. fold args. rewrite Hargs. cbn [bind].
  rewrite (string_operand_concatenates _ _ sa sb Hstr Ha Hb). cbn [bind].
  rewrite Ha, Hb. reflexivity.
Qed.

Lemma add_numbers_string_2_and_3 :
  handleToolCall 0
    (call_request (JStr "add_numbers")
       (JObj [("a", JStr "2"); ("b", JNum (Number.of_Z 3))]))
  = Normal (JObj [("content",
      JArr [JObj [("type", JStr "text");
                  ("text", JStr "2 + 3 = 23")]])]).
Proof.
  exact (add_numbers_concatenates_strings 0
           (call_request (JStr "add_numbers")
              (JObj [("a", JStr "2"); ("b", JNum (Number.of_Z 3))]))
           "2" "3" eq_refl eq_refl eq_refl (or_introl eq_refl)
           eq_refl eq_refl).
Defined.

Lemma add_NaN_l (y : Number.t) : Number.add Number.NaN y = Number.NaN.
Proof. reflexivity. Qed.

Lemma add_NaN_r (x : Number.t) : Number.add x Number.NaN = Number.NaN.
Proof. destruct x; reflexivity. Qed.

Lemma missing_operand_sums_to_NaN (a b : JsValue) :
  a = JUndefined \/ b = JUndefined ->
  Kind.is_primitive a = true -> Kind.is_string a = false ->
  Kind.is_primitive b = true -> Kind.is_string b = false ->
  Js.plus a b = Normal (JNum Number.NaN).
Proof.
  intros Hmissing Hpa Hsa Hpb Hsb. unfold Js.plus.
  destruct Hmissing as [->| ->].
  - destruct b as [| |[|]| | | |]; try discriminate; reflexivity.
  - destruct a as [| |[|]| | | |]; try discriminate;
      cbn [Js.ToPrimitive bind Js.prim_to_number];
      rewrite add_NaN_r; reflexivity.
Qed.

(** X4: when one operand of [add_numbers] is missing and the other is
    missing too, [null], a boolean or a number, the call still succeeds and
    the printed sum is [NaN]. *)
Theorem add_numbers_missing_operand_prints_NaN (now : Z)
  (request : JsValue) (sa sb : string) :
  Js.field request "method" = JStr "tools/call" ->
  Js.field (Js.field request "params") "name" = JStr "add_numbers" ->
  let args := Js.field (Js.field request "params") "arguments" in
  Js.nullish args = false ->
  Js.field args "a" = JUndefined \/ Js.field args "b" = JUndefined ->
  Kind.is_primitive (Js.field args "a") = true ->
  Kind.is_string (Js.field args "a") = false ->
  Kind.is_primitive (Js.field args "b") = true ->
  Kind.is_string (Js.field args "b") = false ->
  Js.ToString (Js.field args "a") = Normal sa ->
  Js.ToString (Js.field args "b") = Normal sb ->
  handleToolCall now request
    = Normal (JObj [("content",
      JArr [JObj [("type", JStr "text");
                  ("text", JStr (sa ++ " + " ++ sb ++ " = NaN"))]])]).
Proof.
  intros Hmethod Hname args Hargs Hmissing Hpa Hsa Hpb Hsb Ha Hb.
  pose proof (field_string_not_nullish _ _ _ Hname) as Hparams.
  enter_call Hmethod Hparams.
  rewrite Hname. simpl Js.strict_eq_string. cbv iota.
  unfold Js.member. fold args. rewrite Hargs. cbn [bind].
  rewrite (missing_operand_sums_to_NaN _ _ Hmissing Hpa Hsa Hpb Hsb).
  cbn [bind]. rewrite Ha, Hb. reflexivity.
Qed.

Lemma add_numbers_without_b :
  handleToolCall 0
    (call_request (JStr "add_numbers") (JObj [("a", JNum (Number.of_Z 2))]))
  = Normal (JObj [("content",
      JArr [JObj [("type", JStr "text");
                  ("text", JStr "2 + undefined = NaN")]])]).
Proof.
  exact (add_numbers_missing_operand_prints_NaN 0
           (call_request (JStr "add_numbers")
              (JObj [("a", JNum (Number.of_Z 2))]))
           "2" "undefined" eq_refl eq_refl eq_refl (or_intror eq_refl)
           eq_refl eq_refl eq_refl eq_refl eq_refl eq_refl).
Defined.

Lemma primitive_prints (v : JsValue) :
  Kind.is_primitive v = true -> exists s, Js.ToString v = Normal s.
Proof.
  destruct v as [| |[|]| | | |]; simpl; intro H; try discriminate; eauto.
Qed.

Lemma primitive_plus_succeeds (a b : JsValue) :
  Kind.is_primitive a = true -> Kind.is_primitive b = true ->
  exists r, Js.plus a b = Normal r /\ Kind.is_primitive r = true.
Proof.
  intros Ha Hb. unfold Js.plus.
  assert (Hpa : exists pa, Js.ToPrimitive a = Normal pa)
    by (destruct a; try discriminate; simpl; eauto).
  assert (Hpb : exists pb, Js.ToPrimitive b = Normal pb)
    by (destruct b; try discriminate; simpl; eauto).
  destruct Hpa as [pa ->]. destruct Hpb as [pb ->]. cbn [bind].
  destruct (Js.prim_to_number pa), (Js.prim_to_number pb);
    eexists; split; reflexivity.
Qed.

(** X5: [add_numbers] never answers with an error when its arguments are
    there and both operands are primitive values (missing, [null],
    booleans, numbers or strings): the call succeeds and the POST route
    answers 200 with the text envelope. *)
Theorem add_numbers_accepts_any_primitives (now : Z) (request : JsValue) :
  Js.field request "method" = JStr "tools/call" ->
  Js.field (Js.field request "params") "name" = JStr "add_numbers" ->
  let args := Js.field (Js.field request "params") "arguments" in
  Js.nullish args = false ->
  Kind.is_primitive (Js.field args "a") = true ->
  Kind.is_primitive (Js.field args "b") = true ->
  exists text,
    handleToolCall now request = Normal (text_content text)
    /\ post_sse now request
       = {| status := 200; json := text_content text |}.
Proof.
  intros Hmethod Hname args Hargs Ha Hb.
  pose proof (field_string_not_nullish _ _ _ Hname) as Hparams.
  destruct (primitive_plus_succeeds _ _ Ha Hb) as (r & Hplus & Hr).
  destruct (primitive_prints _ Ha) as [sa Hsa].
  destruct (primitive_prints _ Hb) as [sb Hsb].
  destruct (primitive_prints _ Hr) as [sr Hsr].
  assert (Hcall : handleToolCall now request
            = Normal (text_content (sa ++ " + " ++ sb ++ " = " ++ sr))).
  { enter_call Hmethod Hparams.
    rewrite Hname. simpl Js.strict_eq_string. cbv iota.
    unfold Js.member. fold args. rewrite Hargs. cbn [bind].
    rewrite Hplus. cbn [bind]. rewrite Hsa, Hsb. cbn [bind].
    rewrite Hsr. reflexivity. }
  eexists. split; [exact Hcall|].
  unfold post_sse. rewrite Hcall. reflexivity.
Qed.

Lemma add_numbers_accepts_true_and_null :
  exists text,
    handleToolCall 0
      (call_request (JStr "add_numbers")
         (JObj [("a", JBool true); ("b", JNull)]))
    = Normal (text_content text)
    /\ post_sse 0
         (call_request (JStr "add_numbers")
            (JObj [("a", JBool true); ("b", JNull)]))
       = {| status := 200; json := text_content text |}.
Proof.
  exact (add_numbers_accepts_any_primitives 0
           (call_request (JStr "add_numbers")
              (JObj [("a", JBool true); ("b", JNull)]))
           eq_refl eq_refl eq_refl eq_refl eq_refl).
Defined.

(** ** The dispatcher as a whole *)

(** What a completed call returns, by the method that was asked. *)
Lemma completed_call_shape (now : Z) (request result : JsValue) :
  handleToolCall now request = Normal result ->
  (Js.field request "method" = JStr "tools/list"
   /\ result = JObj [("tools", getTools)])
  \/ (Js.field request "method" = JStr "tools/call"
      /\ exists text, result = text_content text).
Proof.
  unfold handleToolCall, Js.destructure.
  destruct (Js.nullish request); cbn [bind]; [discriminate|].
  destruct (Js.strict_eq_string (Js.field request "method") "tools/list")
    eqn:Hlist.
  { intro H. inversion H; subst. left. split; [|reflexivity].
    now apply strict_eq_string_true. }
  destruct (Js.strict_eq_string (Js.field request "method") "tools/call")
    eqn:Hcall.
  2:{ destruct (Js.ToString (Js.field request "method")); cbn [bind];
        discriminate. }
  apply strict_eq_string_true in Hcall.
  intro H. right. split; [exact Hcall|]. revert H.
  destruct (Js.nullish (Js.field request "params")); cbn [bind];
    [discriminate|].
  set (name := Js.field (Js.field request "params") "name").
  set (args := Js.field (Js.field request "params") "arguments").
  unfold Js.member.
  destruct (Js.strict_eq_string name "hello").
  { destruct (Js.nullish args); cbn [bind]; [discriminate|].
    destruct (Js.ToString (Js.field args "name")); cbn [bind];
      finish_branch. }
  destruct (Js.strict_eq_string name "echo").
  { destruct (Js.nullish args); cbn [bind]; [discriminate|].
    destruct (Js.ToString (Js.field args "message")); cbn [bind];
      finish_branch. }
  destruct (Js.strict_eq_string name "get_time").
  { finish_branch. }
  destruct (Js.strict_eq_string name "add_numbers").
  { destruct (Js.nullish args); cbn [bind]; [discriminate|].
    destruct (Js.plus (Js.field args "a") (Js.field args "b"));
      cbn [bind]; [|discriminate].
    destruct (Js.ToString (Js.field args "a")); cbn [bind]; [|discriminate].
    destruct (Js.ToString (Js.field args "b")); cbn [bind]; [|discriminate].
    destruct (Js.ToString a); cbn [bind]; finish_branch. }
  destruct (Js.ToString name); cbn [bind]; discriminate.
Qed.

(** X6: for every body that [express.json()] lets through, an object or
    an array, the two POST routes answer alike, and in one of two ways
    only: status 200 with the dispatcher's result, which is the tool
    listing for ['tools/list'] and a single text envelope for
    ['tools/call']; or status 500 with [{error: <message>}], the message
    of what the dispatcher threw.  The value given to [res.json] always
    has a JSON text. *)
Theorem post_answers_200_or_500 (now : Z) (body : JsValue) :
  Routes.parsed_body body = true ->
  let r := post_sse now body in
  post_mcp now body = r
  /\ (exists text, JSON.stringify (json r) = Some text)
  /\ ((status r = 200
       /\ handleToolCall now body = Normal (json r)
       /\ ((Js.field body "method" = JStr "tools/list"
            /\ json r = JObj [("tools", getTools)])
           \/ (Js.field body "method" = JStr "tools/call"
               /\ exists text,
                    json r
                    = JObj [("content",
                             JArr [JObj [("type", JStr "text");
                                         ("text", JStr text)]])])))
      \/ (status r = 500
          /\ exists e, handleToolCall now body = Throw e
                       /\ json r = JObj [("error", JStr (message e))])).
Proof.
  intros _ r. subst r. unfold post_mcp, post_sse.
  destruct (handleToolCall now body) as [result|e] eqn:Hcall;
    cbn [status json].
  - split; [reflexivity|].
    destruct (completed_call_shape now body result Hcall)
      as [[Hm Hr]|[Hm [text Hr]]]; subst result.
    + split; [eexists; reflexivity|]. left. repeat split. left. now split.
    + split; [eexists; reflexivity|]. left. repeat split. right.
      split; [exact Hm|]. exists text. reflexivity.
  - split; [reflexivity|]. split; [eexists; reflexivity|].
    right. split; [reflexivity|]. exists e. now split.
Qed.

Lemma post_answers_an_empty_object :
  post_mcp 0 (JObj []) = post_sse 0 (JObj [])
  /\ status (post_sse 0 (JObj [])) = 500.
Proof.
  pose proof (post_answers_200_or_500 0 (JObj []) eq_refl) as H.
  cbv zeta in H. destruct H as (Hsame & _ & _).
  split; [exact Hsame|reflexivity].
Defined.

(** X7: called with [undefined] or [null], [handleToolCall] throws the
    [TypeError] of destructuring its request.  A body that
    [express.json()] lets through, an object or an array, and that has no
    [method] is refused with ["Unknown method: undefined"], and both POST
    routes answer it with status 500 and that message. *)
Theorem body_without_method (now : Z) (body : JsValue) :
  (Js.nullish body = true ->
     handleToolCall now body
       = Throw (TypeErrorObj (Js.msg_destructure "method" "request" body)))
  /\ (Routes.parsed_body body = true ->
      Js.field body "method" = JUndefined ->
        handleToolCall now body
          = Throw (ErrorObj "Unknown method: undefined")
        /\ post_sse now body
           = {| status := 500;
                json := JObj [("error",
                               JStr "Unknown method: undefined")] |}
        /\ post_mcp now body
           = {| status := 500;
                json := JObj [("error",
                               JStr "Unknown method: undefined")] |}).
Proof.
  split.
  - intro Hnull. unfold handleToolCall, Js.destructure.
    rewrite Hnull. reflexivity.
  - intros Hbody Hmethod.
    assert (Hnot : Js.nullish body = false)
      by (destruct body; try discriminate; reflexivity).
    assert (H : handleToolCall now body
                = Throw (ErrorObj "Unknown method: undefined")).
    { unfold handleToolCall, Js.destructure. rewrite Hnot. cbn [bind].
      rewrite Hmethod. reflexivity. }
    split; [exact H|].
    unfold post_sse, post_mcp. rewrite H. split; reflexivity.
Qed.

Lemma body_without_method_examples :
  handleToolCall 0 JUndefined
    = Throw (TypeErrorObj
               (Js.msg_destructure "method" "request" JUndefined))
  /\ post_sse 0 (JArr [])
     = {| status := 500;
          json := JObj [("error", JStr "Unknown method: undefined")] |}.
Proof.
  split.
  - exact (proj1 (body_without_method 0 JUndefined) eq_refl).
  - exact (proj1 (proj2 (proj2 (body_without_method 0 (JArr []))
                          eq_refl eq_refl))).
Defined.

(** X8: the clock matters to [get_time] only: any request that is not a
    ['tools/call'] for [get_time] has the same outcome, result or error,
    at any two times. *)
Theorem only_get_time_reads_the_clock (now now' : Z) (request : JsValue) :
  Js.field request "method" <> JStr "tools/call"
    \/ Js.field (Js.field request "params") "name" <> JStr "get_time" ->
  handleToolCall now request = handleToolCall now' request.
Proof.
  intro Hother. unfold handleToolCall.
  destruct (Js.destructure "method" "request" request); cbn [bind];
    [|reflexivity].
  destruct (Js.strict_eq_string (Js.field request "method") "tools/list");
    [reflexivity|].
  destruct (Js.strict_eq_string (Js.field request "method") "tools/call")
    eqn:Hcall; [|reflexivity].
  destruct (Js.destructure "name" "params" (Js.field request "params"));
    cbn [bind]; [|reflexivity].
  destruct (Js.strict_eq_string
              (Js.field (Js.field request "params") "name") "hello");
    [reflexivity|].
  destruct (Js.strict_eq_string
              (Js.field (Js.field request "params") "name") "echo");
    [reflexivity|].
  destruct (Js.strict_eq_string
              (Js.field (Js.field request "params") "name") "get_time")
    eqn:Htime; [|reflexivity].
  apply strict_eq_string_true in Hcall, Htime.
  destruct Hother as [H|H]; contradiction.
Qed.

Lemma echo_at_two_times :
  handleToolCall 0
    (call_request (JStr "echo") (JObj [("message", JStr "ping")]))
  = handleToolCall 1700000000000
      (call_request (JStr "echo") (JObj [("message", JStr "ping")])).
Proof.
  apply (only_get_time_reads_the_clock 0 1700000000000
           (call_request (JStr "echo") (JObj [("message", JStr "ping")]))).
  right. simpl. discriminate.
Defined.

(** ** The registry and the routes that publish it *)

(** X9: every handler reads only the argument properties its descriptor
    declares under [inputSchema.properties]: two calls of a registered
    tool whose arguments agree on the declared properties have the same
    outcome, whatever else the arguments hold. *)
Theorem handlers_read_declared_properties_only (now : Z)
  (descriptor : JsValue) (n : string) (args args' : JsValue) :
  In descriptor (Kind.elements getTools) ->
  Js.field descriptor "name" = JStr n ->
  Js.nullish args = false ->
  Js.nullish args' = false ->
  (forall key, In key (Kind.declared_keys descriptor) ->
     Js.field args key = Js.field args' key) ->
  handleToolCall now (call_request (JStr n) args)
  = handleToolCall now (call_request (JStr n) args').
Proof.
  intros Hin Hname Hargs Hargs' Hsame.
  simpl in Hin.
  destruct Hin as [H|[H|[H|[H|[]]]]]; subst descriptor;
    simpl in Hname; inversion Hname; subst n;
    unfold handleToolCall, call_request; simpl;
    unfold Js.member; rewrite ?Hargs, ?Hargs'; cbn [bind].
  - rewrite (Hsame "name") by (simpl; tauto). reflexivity.
  - rewrite (Hsame "message") by (simpl; tauto). reflexivity.
  - reflexivity.
  - rewrite (Hsame "a"), (Hsame "b") by (simpl; tauto). reflexivity.
Qed.

Lemma hello_ignores_other_properties :
  handleToolCall 0
    (call_request (JStr "hello")
       (JObj [("name", JStr "World"); ("shout", JBool true)]))
  = handleToolCall 0
      (call_request (JStr "hello") (JObj [("name", JStr "World")])).
Proof.
  refine (handlers_read_declared_properties_only 0
            (JObj [
               ("name", JStr "hello");
               ("description", JStr "Say hello to someone");
               ("inputSchema", JObj [
                  ("type", JStr "object");
                  ("properties", JObj [
                     ("name", JObj [
                        ("type", JStr "string");
                        ("description", JStr "Name of the person to greet")
                     ])
                  ]);
                  ("required", JArr [JStr "name"])
               ])
            ])
            "hello"
            (JObj [("name", JStr "World"); ("shout", JBool true)])
            (JObj [("name", JStr "World")])
            (or_introl eq_refl) eq_refl eq_refl eq_refl _).
  intros key [<-|[]]. reflexivity.
Defined.

(** X10: every way of asking for the tools gives the same descriptors: a
    POST of ['tools/list'] answers with the very body of GET /tools, GET
    /status carries the same array, the second frame of the event stream
    wraps it, and GET /test lists the names of these descriptors in the
    same order together with their count. *)
Theorem discovery_paths_agree (now accepted : Z) (closing : option Z)
  (request : JsValue) :
  Js.field request "method" = JStr "tools/list" ->
  let tools := Js.field (json Routes.get_tools) "tools" in
  post_sse now request = Routes.get_tools
  /\ wire_body (post_mcp now request) = wire_body Routes.get_tools
  /\ Js.field (json Routes.get_status) "tools" = tools
  /\ nth_error (Sse.written (Sse.res (Sse.get_sse accepted closing))) 1
     = Some (accepted, Sse.data_frame (Sse.toolsMessage tools))
  /\ Js.field (json (Routes.get_test now)) "tools"
     = JArr (descriptor_names tools)
  /\ Js.field (json (Routes.get_test now)) "total_tools"
     = JNum (Number.of_Z
               (Z.of_nat (List.length (descriptor_names tools)))).
Proof.
  intros Hmethod tools.
  assert (Hlist : forall t, handleToolCall t request
                            = Normal (JObj [("tools", getTools)])).
  { intro t. unfold handleToolCall, Js.destructure.
    rewrite (field_string_not_nullish _ _ _ Hmethod). cbn [bind].
    rewrite Hmethod. reflexivity. }
  unfold post_sse, post_mcp. rewrite !Hlist.
  repeat split.
Qed.

Lemma discovery_paths_agree_example :
  post_sse 0 (JObj [("method", JStr "tools/list")]) = Routes.get_tools.
Proof.
  exact (proj1 (discovery_paths_agree 0 0 None
                  (JObj [("method", JStr "tools/list")]) eq_refl)).
Defined.

(** ** The event loop of a connection, from any state *)

(** X11: whatever the state of a connection, the event loop never touches
    the head or the frames already written; what it adds are keep-alive
    frames only, none at all once the timer is cleared, and a response
    that is ended stays ended. *)
Theorem event_loop_only_appends_keep_alives (l : Sse.Loop) (turns : nat) :
  exists extra : list (Z * string),
    Sse.written (Sse.res (Sse.run turns l))
      = (Sse.written (Sse.res l) ++ extra)%list
    /\ Forall (fun w => snd w = Sse.keep_alive_frame) extra
    /\ Sse.head (Sse.res (Sse.run turns l)) = Sse.head (Sse.res l)
    /\ (Sse.interval l = None -> extra = [])
    /\ (Sse.ended (Sse.res l) = true ->
        Sse.ended (Sse.res (Sse.run turns l)) = true).
Proof.
  revert l. induction turns as [|turns IH]; intro l.
  - exists []. simpl. rewrite app_nil_r. repeat split; auto.
  - simpl. destruct (Sse.next_event l) as [ev|] eqn:Hev.
    2:{ exists []. rewrite app_nil_r. repeat split; auto. }
    destruct (IH (Sse.deliver l ev)) as (extra & Hw & Hall & Hhead & Hnone & Hend).
    unfold Sse.next_event in Hev.
    destruct ev as [time|time].
    + exists ((time, Sse.keep_alive_frame) :: extra).
      rewrite Hw, Hhead. simpl. rewrite <- app_assoc. simpl.
      repeat split.
      * constructor; [reflexivity|exact Hall].
      * intro Hint. rewrite Hint in Hev.
        destruct (Sse.peer_close l); discriminate.
      * intro Hended. apply Hend. simpl. exact Hended.
    + exists extra. rewrite Hw, Hhead.
      assert (Hsame :
        Sse.written (Sse.res (Sse.deliver l (Sse.PeerClose time)))
          = Sse.written (Sse.res l)
        /\ Sse.head (Sse.res (Sse.deliver l (Sse.PeerClose time)))
           = Sse.head (Sse.res l)).
      { simpl. destruct (Sse.close_listener l); split; reflexivity. }
      destruct Hsame as [-> ->].
      repeat split.
      * exact Hall.
      * intro Hint. apply Hnone. simpl.
        destruct (Sse.close_listener l); [reflexivity|exact Hint].
      * intro Hended. apply Hend. simpl.
        destruct (Sse.close_listener l); [reflexivity|exact Hended].
Qed.

(** ** The constructor *)

Arguments Text.digit_char : simpl never.
Arguments Startup.code : simpl never.
Arguments Startup.digit_value : simpl never.
Arguments Z.pow : simpl never.
Arguments Z.mul : simpl never.
Arguments Z.add : simpl never.
Arguments Z.modulo : simpl never.
Arguments Z.div : simpl never.

Ltac decide_tests :=
  repeat match goal with
         | |- context [Z.eqb ?a ?b] =>
             destruct (Z.eqb_spec a b); try lia
         | |- context [Z.leb ?a ?b] =>
             destruct (Z.leb_spec a b); try lia
         | |- context [Z.ltb ?a ?b] =>
             destruct (Z.ltb_spec a b); try lia
         end.

Lemma code_digit_char (d : Z) :
  0 <= d < 10 -> Startup.code (Text.digit_char d) = 48 + d.
Proof.
  intro Hd. unfold Startup.code, Text.digit_char.
  rewrite nat_ascii_embedding by lia. lia.
Qed.

Lemma digit_value_digit_char (d : Z) :
  0 <= d < 10 -> Startup.digit_value (Text.digit_char d) = Some d.
Proof.
  intro Hd. unfold Startup.digit_value.
  rewrite (code_digit_char d Hd). decide_tests. cbn [andb]. f_equal. lia.
Qed.

Lemma scan_digits_cons (radix : Z) (c : ascii) (rest : string) (acc : Z) :
  Startup.scan_digits radix (String c rest) acc
  = match Startup.digit_value c with
    | Some d =>
        if d <? radix then Startup.scan_digits radix rest (acc * radix + d)
        else acc
    | None => acc
    end.
Proof. reflexivity. Qed.

Lemma digits_fuel_succ (fuel : nat) (n : Z) (acc : string) :
  Text.digits_fuel (S fuel) n acc
  = if n <? 10 then String (Text.digit_char (n mod 10)) acc
    else Text.digits_fuel fuel (n / 10)
           (String (Text.digit_char (n mod 10)) acc).
Proof. reflexivity. Qed.

Lemma digits_fuel_app (fuel : nat) (n : Z) (acc tail : string) :
  Text.digits_fuel fuel n acc ++ tail
  = Text.digits_fuel fuel n (acc ++ tail).
Proof.
  revert n acc. induction fuel as [|fuel IH]; intros n acc.
  - reflexivity.
  - rewrite !digits_fuel_succ.
    destruct (n <? 10); [reflexivity|]. rewrite IH. reflexivity.
Qed.

(** Reading back the digits that [Text.digits_fuel] wrote. *)
Lemma scan_digits_fuel (fuel : nat) (n : Z) (acc : string) :
  0 <= n < 10 ^ Z.of_nat fuel ->
  exists k, 0 <= k /\ forall a,
    Startup.scan_digits 10 (Text.digits_fuel fuel n acc) a
    = Startup.scan_digits 10 acc (a * 10 ^ k + n).
Proof.
  revert n acc. induction fuel as [|fuel IH]; intros n acc Hn.
  - exists 0. split; [lia|]. intro a. simpl Text.digits_fuel.
    simpl Z.of_nat in Hn. change (10 ^ 0) with 1 in *. f_equal. lia.
  - assert (Hmod : 0 <= n mod 10 < 10) by (apply Z.mod_pos_bound; lia).
    rewrite digits_fuel_succ. destruct (Z.ltb_spec n 10) as [Hsmall|Hbig].
    + exists 1. split; [lia|]. intro a. rewrite scan_digits_cons.
      rewrite (digit_value_digit_char _ Hmod).
      destruct (Z.ltb_spec (n mod 10) 10); [|lia].
      rewrite Z.mod_small by lia. f_equal; try lia.
    + assert (Hdiv : 0 <= n / 10 < 10 ^ Z.of_nat fuel).
      { split; [apply Z.div_pos; lia|].
        apply Z.div_lt_upper_bound; [lia|].
        replace (Z.of_nat (S fuel)) with (Z.of_nat fuel + 1) in Hn by lia.
        rewrite Z.pow_add_r in Hn by lia. lia. }
      destruct (IH (n / 10) (String (Text.digit_char (n mod 10)) acc) Hdiv)
        as (k & Hk & Hscan).
      exists (k + 1). split; [lia|]. intro a. rewrite Hscan.
      rewrite scan_digits_cons.
      rewrite (digit_value_digit_char _ Hmod).
      destruct (Z.ltb_spec (n mod 10) 10); [|lia].
      f_equal. rewrite Z.pow_add_r by lia.
      pose proof (Z.div_mod n 10 ltac:(lia)). lia.
Qed.

Definition head_not_x (s : string) : Prop :=
  match s with
  | String c _ => Startup.code c <> 120 /\ Startup.code c <> 88
  | EmptyString => True
  end.

(** What [Text.digits_fuel] writes starts with a digit, and its second
    character is not the [x] of a hexadecimal prefix. *)
Lemma digits_fuel_head (fuel : nat) (n : Z) (acc : string) :
  head_not_x acc ->
  exists d rest,
    Text.digits_fuel (S fuel) n acc = String (Text.digit_char d) rest
    /\ 0 <= d < 10 /\ head_not_x rest.
Proof.
  revert n acc. induction fuel as [|fuel IH]; intros n acc Hacc;
    assert (Hmod : 0 <= n mod 10 < 10) by (apply Z.mod_pos_bound; lia).
  - exists (n mod 10), acc. rewrite digits_fuel_succ.
    destruct (n <? 10); auto.
  - rewrite digits_fuel_succ.
    destruct (n <? 10).
    + exists (n mod 10), acc. auto.
    + apply IH. simpl. rewrite (code_digit_char _ Hmod). lia.
Qed.

Lemma decimal_fuel_enough (n : Z) :
  0 <= n -> n < 10 ^ Z.of_nat (S (Z.to_nat (Z.log2 n))).
Proof.
  intro Hn. rewrite Nat2Z.inj_succ, Z2Nat.id by apply Z.log2_nonneg.
  destruct (Z.eq_dec n 0) as [->|Hpos]; [reflexivity|].
  pose proof (Z.log2_spec n ltac:(lia)) as [_ Hlt].
  apply Z.lt_le_trans with (1 := Hlt).
  apply Z.pow_le_mono_l. split; [lia|lia].
Qed.

Lemma trim_start_of_digit (c : ascii) (rest : string) :
  48 <= Startup.code c <= 57 ->
  Startup.trim_start (String c rest) = String c rest.
Proof.
  intro Hc. simpl.
  unfold Startup.is_space1, Startup.is_space2, Startup.is_space3.
  destruct rest as [|c2 [|c3 rest3]]; decide_tests; reflexivity.
Qed.

Lemma scan_stops (tail : string) (a : Z) :
  Kind.ends_decimal tail = true -> Startup.scan_digits 10 tail a = a.
Proof.
  destruct tail as [|c rest]; [reflexivity|]. simpl.
  unfold Startup.is_digit. destruct (Startup.digit_value c) as [d|];
    [|reflexivity].
  destruct (d <? 10); [discriminate|reflexivity].
Qed.

Lemma ends_decimal_head (tail : string) :
  Kind.ends_decimal tail = true -> head_not_x tail.
Proof.
  destruct tail as [|c rest]; simpl; [trivial|].
  intro H. apply andb_prop in H as [H H88].
  apply andb_prop in H as [_ H120].
  apply negb_true_iff in H88, H120.
  apply Z.eqb_neq in H88, H120. now split.
Qed.

(** [parseInt] reads back a decimal number, and stops at what follows. *)
Lemma parseInt_decimal (n : Z) (tail : string) :
  0 <= n -> Kind.ends_decimal tail = true ->
  Startup.parseInt (Text.decimal n ++ tail) = Number.of_Z n.
Proof.
  intros Hn Htail. unfold Text.decimal. rewrite digits_fuel_app.
  change ("" ++ tail) with tail.
  set (fuel := Z.to_nat (Z.log2 n)).
  destruct (digits_fuel_head fuel n tail (ends_decimal_head _ Htail))
    as (d & rest & Hhead & Hd & Hrest).
  destruct (scan_digits_fuel (S fuel) n tail) as (k & Hk & Hscan).
  { split; [exact Hn|]. now apply decimal_fuel_enough. }
  specialize (Hscan 0). rewrite (scan_stops _ _ Htail) in Hscan.
  replace (0 * 10 ^ k + n) with n in Hscan by lia.
  revert Hscan. rewrite Hhead. intro Hscan.
  pose proof (code_digit_char d Hd) as Hcode.
  unfold Startup.parseInt.
  rewrite trim_start_of_digit by lia.
  assert (Hsign : Startup.strip_sign (String (Text.digit_char d) rest)
                  = (false, String (Text.digit_char d) rest)).
  { unfold Startup.strip_sign. rewrite Hcode. decide_tests. reflexivity. }
  rewrite Hsign.
  assert (Hprefix : Startup.strip_prefix (String (Text.digit_char d) rest)
                    = (10, String (Text.digit_char d) rest)).
  { unfold Startup.strip_prefix. destruct rest as [|c2 rest2];
      [reflexivity|].
    simpl in Hrest. destruct Hrest as [H120 H88].
    destruct (Z.eqb_spec (Startup.code c2) 120); [contradiction|].
    destruct (Z.eqb_spec (Startup.code c2) 88); [contradiction|].
    rewrite andb_false_r. reflexivity. }
  rewrite Hprefix.
  unfold Startup.is_digit. rewrite (digit_value_digit_char d Hd).
  destruct (Z.ltb_spec d 10); [|lia].
  rewrite Hscan.
  destruct (Z.eqb_spec n 0) as [->|Hnz]; reflexivity.
Qed.

(** X12: when [PORT] is not set or empty the server listens on port 8000,
    and when [HOST] is not set or empty on ["0.0.0.0"]; a [HOST] that is
    not empty is taken as it is. *)
Theorem constructor_defaults (env : Startup.Env) :
  (Startup.PORT env = None \/ Startup.PORT env = Some "" ->
     Startup.port (Startup.constructor env) = Number.of_Z 8000)
  /\ (Startup.HOST env = None \/ Startup.HOST env = Some "" ->
        Startup.host (Startup.constructor env) = "0.0.0.0")
  /\ (forall h, Startup.HOST env = Some h -> h <> "" ->
        Startup.host (Startup.constructor env) = h).
Proof.
  unfold Startup.constructor. cbn [Startup.port Startup.host].
  repeat split.
  - intros [H|H]; rewrite H; vm_compute; reflexivity.
  - intros [H|H]; rewrite H; reflexivity.
  - intros h H Hh. rewrite H. destruct h; [contradiction|reflexivity].
Qed.

Lemma constructor_defaults_example :
  Startup.port
    (Startup.constructor {| Startup.PORT := Some ""; Startup.HOST := None |})
    = Number.of_Z 8000
  /\ Startup.host
       (Startup.constructor
          {| Startup.PORT := Some ""; Startup.HOST := None |})
     = "0.0.0.0".
Proof.
  split.
  - exact (proj1 (constructor_defaults
                    {| Startup.PORT := Some ""; Startup.HOST := None |})
                 (or_intror eq_refl)).
  - exact (proj1 (proj2 (constructor_defaults
                    {| Startup.PORT := Some ""; Startup.HOST := None |}))
                 (or_introl eq_refl)).
Defined.

(** X13: a [PORT] that starts with the decimal digits of [n] makes the port
    the number [n]: [parseInt] reads the digits back and ignores whatever
    follows them, as long as that is not another digit (or the [x] that
    would turn a leading [0] into a hexadecimal prefix). *)
Theorem constructor_reads_decimal_port (env : Startup.Env) (n : Z)
  (tail : string) :
  0 <= n ->
  Kind.ends_decimal tail = true ->
  Startup.PORT env = Some (Text.decimal n ++ tail) ->
  Startup.port (Startup.constructor env) = Number.of_Z n.
Proof.
  intros Hn Htail Hport. unfold Startup.constructor.
  cbn [Startup.port]. rewrite Hport.
  assert (Hkeep : Startup.or_else (Some (Text.decimal n ++ tail)) "8000"
                  = Text.decimal n ++ tail).
  { unfold Text.decimal.
    destruct (digits_fuel_head (Z.to_nat (Z.log2 n)) n "" I)
      as (d & rest & Hhead & _ & _).
    rewrite Hhead. reflexivity. }
  rewrite Hkeep. now apply parseInt_decimal.
Qed.

Lemma constructor_reads_port_8080 :
  Startup.port
    (Startup.constructor
       {| Startup.PORT := Some "8080/tcp"; Startup.HOST := None |})
  = Number.of_Z 8080.
Proof.
  exact (constructor_reads_decimal_port
           {| Startup.PORT := Some "8080/tcp"; Startup.HOST := None |}
           8080 "/tcp" ltac:(lia) eq_refl eq_refl).
Defined.

(** X14: a [PORT] that starts with a letter is not a number: the port is
    [NaN], the default is not used. *)
Theorem constructor_port_of_a_word (env : Startup.Env) (c : ascii)
  (rest : string) :
  Kind.is_letter c = true ->
  Startup.PORT env = Some (String c rest) ->
  Startup.port (Startup.constructor env) = Number.NaN.
Proof.
  intros Hletter Hport. unfold Startup.constructor.
  cbn [Startup.port]. rewrite Hport. cbn [Startup.or_else].
  unfold Kind.is_letter in Hletter.
  assert (Hc : 65 <= Startup.code c <= 90 \/ 97 <= Startup.code c <= 122).
  { apply orb_prop in Hletter as [H|H]; apply andb_prop in H as [H1 H2];
      apply Z.leb_le in H1, H2; lia. }
  assert (Htrim : Startup.trim_start (String c rest) = String c rest).
  { simpl.
    unfold Startup.is_space1, Startup.is_space2, Startup.is_space3.
    destruct rest as [|c2 [|c3 rest3]]; decide_tests; reflexivity. }
  unfold Startup.parseInt. rewrite Htrim.
  assert (Hsign : Startup.strip_sign (String c rest)
                  = (false, String c rest)).
  { unfold Startup.strip_sign. decide_tests. reflexivity. }
  rewrite Hsign.
  assert (Hprefix : Startup.strip_prefix (String c rest)
                    = (10, String c rest)).
  { unfold Startup.strip_prefix. destruct rest as [|c2 rest2];
      [reflexivity|].
    destruct (Z.eqb_spec (Startup.code c) 48); [lia|]. reflexivity. }
  rewrite Hprefix.
  assert (Hdigit : Startup.is_digit 10 c = false).
  { unfold Startup.is_digit, Startup.digit_value.
    decide_tests; cbn [andb]; decide_tests; reflexivity. }
  rewrite Hdigit. reflexivity.
Qed.

Lemma constructor_port_of_http :
  Startup.port
    (Startup.constructor
       {| Startup.PORT := Some "http"; Startup.HOST := None |})
  = Number.NaN.
Proof.
  exact (constructor_port_of_a_word
           {| Startup.PORT := Some "http"; Startup.HOST := None |}
           "h"%char "ttp" eq_refl eq_refl).
Defined.

(** ** The timestamp of [get_time] *)

Lemma length_app (a b : string) :
  String.length (a ++ b) = (String.length a + String.length b)%nat.
Proof.
  induction a as [|c a IH]; simpl; [reflexivity|]. now rewrite IH.
Qed.

Lemma length_repeat_zero (k : nat) :
  String.length (Text.repeat_string k "0") = k.
Proof.
  induction k as [|k IH]; simpl; [reflexivity|]. now rewrite IH.
Qed.

Lemma digits_fuel_length (fuel w : nat) (n : Z) (acc : string) :
  (1 <= w)%nat -> 0 <= n < 10 ^ Z.of_nat w ->
  (String.length (Text.digits_fuel fuel n acc) <= w + String.length acc)%nat.
Proof.
  revert w n acc. induction fuel as [|fuel IH]; intros w n acc Hw Hn.
  - simpl. lia.
  - rewrite digits_fuel_succ. destruct (Z.ltb_spec n 10) as [Hsmall|Hbig].
    + simpl. lia.
    + destruct w as [|[|w]]; [lia| |].
      * change (10 ^ Z.of_nat 1) with 10 in Hn. lia.
      * assert (Hdiv : 0 <= n / 10 < 10 ^ Z.of_nat (S w)).
        { split; [apply Z.div_pos; lia|].
          apply Z.div_lt_upper_bound; [lia|].
          replace (Z.of_nat (S (S w))) with (Z.of_nat (S w) + 1) in Hn
            by lia.
          rewrite Z.pow_add_r in Hn by lia.
          change (10 ^ 1) with 10 in Hn. lia. }
        pose proof (IH (S w) (n / 10)
                      (String (Text.digit_char (n mod 10)) acc)
                      ltac:(lia) Hdiv) as Hlen.
        change (String.length (String (Text.digit_char (n mod 10)) acc))
          with (S (String.length acc)) in Hlen.
        lia.
Qed.

(** A number below [10^w] is padded to exactly [w] digits. *)
Lemma pad_left_length (w : nat) (n : Z) :
  (1 <= w)%nat -> 0 <= n < 10 ^ Z.of_nat w ->
  String.length (Text.pad_left w n) = w.
Proof.
  intros Hw Hn. unfold Text.pad_left.
  rewrite length_app, length_repeat_zero.
  pose proof (digits_fuel_length (S (Z.to_nat (Z.log2 n))) w n "" Hw Hn)
    as Hlen.
  unfold Text.decimal. change (String.length "") with 0%nat in Hlen. lia.
Qed.

(** The calendar date of a day between 1970-01-01 and 9999-12-31. *)
Lemma civil_from_days_bounds (days : Z) :
  0 <= days < 2932897 ->
  let '(y, m, d) := Date.civil_from_days days in
  1970 <= y <= 9999 /\ 1 <= m <= 12 /\ 1 <= d <= 31.
Proof.
  intro H.
  enough (Hraw :
    let z := days + 719468 in
    let era := z / 146097 in
    let doe := z - era * 146097 in
    let yoe := (doe - doe / 1460 + doe / 36524 - doe / 146096) / 365 in
    let doy := doe - (365 * yoe + yoe / 4 - yoe / 100) in
    let mp := (5 * doy + 2) / 153 in
    let d := doy - (153 * mp + 2) / 5 + 1 in
    let m := if mp <? 10 then mp + 3 else mp - 9 in
    let y := yoe + era * 400 + (if m <=? 2 then 1 else 0) in
    1970 <= y <= 9999 /\ 1 <= m <= 12 /\ 1 <= d <= 31) by exact Hraw.
  intros z era doe yoe doy mp d m y.
  assert (Hera : 4 <= era <= 24)
    by (subst era z; Z.div_mod_to_equations; lia).
  assert (Hdoe : 0 <= doe <= 146096)
    by (subst doe era z; Z.div_mod_to_equations; lia).
  assert (Hz : z = era * 146097 + doe) by (subst doe; lia).
  assert (Hzr : 719468 <= z <= 3652364) by (subst z; lia).
  clearbody doe era z. clear H.
  assert (Hyoe : 0 <= yoe <= 399)
    by (subst yoe; Z.div_mod_to_equations; lia).
  assert (Hdoy : 0 <= doy <= 365)
    by (subst doy yoe; Z.div_mod_to_equations; lia).
  assert (Hmp : 0 <= mp <= 11) by (subst mp; Z.div_mod_to_equations; lia).
  assert (Hd : 1 <= d <= 31)
    by (subst d mp; clearbody doy; Z.div_mod_to_equations; lia).
  assert (Hm : 1 <= m <= 12)
    by (subst m; destruct (Z.ltb_spec mp 10); lia).
  split; [|split; assumption].
  subst y m.
  destruct (Z.ltb_spec mp 10);
    [destruct (Z.leb_spec (mp + 3) 2)|destruct (Z.leb_spec (mp - 9) 2)];
    try lia; subst mp doy yoe; Z.div_mod_to_equations; lia.
Qed.

(** X15: for a call between 1970 and the end of the year 9999, the text of
    [get_time] is ["Current time: "] followed by a timestamp of the shape
    [YYYY-MM-DDTHH:mm:ss.sssZ]: a year from 1970 to 9999, a month from 1 to
    12, a day from 1 to 31, hours, minutes, seconds and milliseconds in
    their ranges, each padded with zeros to its width; 38 characters in
    all. *)
Theorem get_time_prints_iso_timestamp (now : Z) (request : JsValue) :
  Js.field request "method" = JStr "tools/call" ->
  Js.field (Js.field request "params") "name" = JStr "get_time" ->
  0 <= now < 253402300800000 ->
  exists (y mo d h mi s ms : Z) (text : string),
    handleToolCall now request = Normal (JObj [("content",
      JArr [JObj [("type", JStr "text");
                  ("text", JStr text)]])])
    /\ text = "Current time: "
                ++ Text.pad_left 4 y ++ "-" ++ Text.pad_left 2 mo
                ++ "-" ++ Text.pad_left 2 d ++ "T" ++ Text.pad_left 2 h
                ++ ":" ++ Text.pad_left 2 mi ++ ":" ++ Text.pad_left 2 s
                ++ "." ++ Text.pad_left 3 ms ++ "Z"
    /\ 1970 <= y <= 9999 /\ 1 <= mo <= 12 /\ 1 <= d <= 31
    /\ 0 <= h < 24 /\ 0 <= mi < 60 /\ 0 <= s < 60 /\ 0 <= ms < 1000
    /\ String.length text = 38%nat.
Proof.
  intros Hmethod Hname Hnow.
  pose proof (field_string_not_nullish _ _ _ Hname) as Hparams.
  assert (Hcall : handleToolCall now request
            = Normal (text_content
                ("Current time: " ++ Date.toISOString now))).
  { enter_call Hmethod Hparams. rewrite Hname. reflexivity. }
  assert (Hdays : 0 <= now / Date.msPerDay < 2932897).
  { unfold Date.msPerDay. split; [apply Z.div_pos; lia|].
    apply Z.div_lt_upper_bound; lia. }
  pose proof (civil_from_days_bounds _ Hdays) as Hdate.
  unfold Date.toISOString in Hcall.
  destruct (Date.civil_from_days (now / Date.msPerDay)) as [[y mo] d].
  destruct Hdate as (Hy & Hmo & Hd).
  set (t := now mod Date.msPerDay) in Hcall.
  assert (Ht : 0 <= t < 86400000)
    by (apply Z.mod_pos_bound; reflexivity).
  assert (Hh : 0 <= t / 3600000 < 24).
  { split; [apply Z.div_pos; lia|]. apply Z.div_lt_upper_bound; lia. }
  assert (Hmi : 0 <= t / 60000 mod 60 < 60)
    by (apply Z.mod_pos_bound; lia).
  assert (Hs : 0 <= t / 1000 mod 60 < 60) by (apply Z.mod_pos_bound; lia).
  assert (Hms : 0 <= t mod 1000 < 1000) by (apply Z.mod_pos_bound; lia).
  assert (Hyear : Date.year_text y = Text.pad_left 4 y).
  { unfold Date.year_text. decide_tests. reflexivity. }
  rewrite Hyear in Hcall.
  exists y, mo, d, (t / 3600000), (t / 60000 mod 60), (t / 1000 mod 60),
         (t mod 1000).
  eexists. split; [exact Hcall|]. split; [reflexivity|].
  repeat (split; [assumption|]).
  rewrite !length_app.
  rewrite (pad_left_length 4 y), (pad_left_length 2 mo),
    (pad_left_length 2 d), (pad_left_length 2 (t / 3600000)),
    (pad_left_length 2 (t / 60000 mod 60)),
    (pad_left_length 2 (t / 1000 mod 60)),
    (pad_left_length 3 (t mod 1000));
    try reflexivity; try lia;
    match goal with
    | |- _ <= _ < 10 ^ Z.of_nat ?w =>
        let p := eval vm_compute in (10 ^ Z.of_nat w) in
        change (10 ^ Z.of_nat w) with p; lia
    end.
Qed.

Lemma get_time_in_november_2023 :
  exists (y mo d h mi s ms : Z) (text : string),
    handleToolCall 1700000000000 (call_request (JStr "get_time") JUndefined)
      = Normal (JObj [("content",
      JArr [JObj [("type", JStr "text");
                  ("text", JStr text)]])])
    /\ text = "Current time: "
                ++ Text.pad_left 4 y ++ "-" ++ Text.pad_left 2 mo
                ++ "-" ++ Text.pad_left 2 d ++ "T" ++ Text.pad_left 2 h
                ++ ":" ++ Text.pad_left 2 mi ++ ":" ++ Text.pad_left 2 s
                ++ "." ++ Text.pad_left 3 ms ++ "Z"
    /\ 1970 <= y <= 9999 /\ 1 <= mo <= 12 /\ 1 <= d <= 31
    /\ 0 <= h < 24 /\ 0 <= mi < 60 /\ 0 <= s < 60 /\ 0 <= ms < 1000
    /\ String.length text = 38%nat.
Proof.
  exact (get_time_prints_iso_timestamp 1700000000000
           (call_request (JStr "get_time") JUndefined)
           eq_refl eq_refl ltac:(lia)).
Defined.

(** ** JSON text on the wire *)

Lemma single_line_app (a b : string) :
  Kind.single_line (a ++ b) = Kind.single_line a && Kind.single_line b.
Proof.
  induction a as [|c a IH]; [reflexivity|].
  cbn [append Kind.single_line]. rewrite IH. now rewrite andb_assoc.
Qed.

Lemma single_line_cons (c : ascii) (s : string) :
  Startup.code c <> 10 -> Startup.code c <> 13 ->
  Kind.single_line s = true -> Kind.single_line (String c s) = true.
Proof.
  intros H10 H13 Hs. cbn [Kind.single_line]. rewrite Hs.
  destruct (Z.eqb_spec (Startup.code c) 10); [contradiction|].
  destruct (Z.eqb_spec (Startup.code c) 13); [contradiction|].
  reflexivity.
Qed.

Lemma single_line_digits_fuel (fuel : nat) (n : Z) (acc : string) :
  Kind.single_line acc = true ->
  Kind.single_line (Text.digits_fuel fuel n acc) = true.
Proof.
  revert n acc. induction fuel as [|fuel IH]; intros n acc Hacc.
  - exact Hacc.
  - assert (Hmod : 0 <= n mod 10 < 10) by (apply Z.mod_pos_bound; lia).
    assert (Hcons : Kind.single_line
                      (String (Text.digit_char (n mod 10)) acc) = true).
    { apply single_line_cons; [| |exact Hacc];
        rewrite (code_digit_char _ Hmod); lia. }
    rewrite digits_fuel_succ. destruct (n <? 10); [exact Hcons|].
    now apply IH.
Qed.

Lemma single_line_decimal (n : Z) :
  Kind.single_line (Text.decimal n) = true.
Proof. now apply single_line_digits_fuel. Qed.

Lemma single_line_repeat (k : nat) (s : string) :
  Kind.single_line s = true ->
  Kind.single_line (Text.repeat_string k s) = true.
Proof.
  intro Hs. induction k as [|k IH]; [reflexivity|].
  cbn [Text.repeat_string]. now rewrite single_line_app, Hs, IH.
Qed.

Lemma single_line_substring (a b : nat) (s : string) :
  Kind.single_line s = true ->
  Kind.single_line (substring a b s) = true.
Proof.
  revert a b. induction s as [|c s IH]; intros a b Hs.
  - destruct a, b; reflexivity.
  - cbn [Kind.single_line] in Hs.
    apply andb_prop in Hs as [Hc Hrest].
    destruct a as [|a]; [destruct b as [|b]|]; cbn [substring].
    + reflexivity.
    + cbn [Kind.single_line]. now rewrite Hc, IH.
    + now apply IH.
Qed.

Lemma single_line_format_positive (m e : Z) :
  Kind.single_line (Number.format_positive m e) = true.
Proof.
  unfold Number.format_positive.
  destruct (Number.shortest m e) as [[s n] k].
  unfold Text.take, Text.drop.
  repeat match goal with
         | |- context [if ?c then _ else _] => destruct c
         end;
    rewrite ?single_line_app;
    rewrite ?single_line_decimal;
    rewrite ?single_line_substring by apply single_line_decimal;
    rewrite ?single_line_repeat by reflexivity;
    reflexivity.
Qed.

Lemma single_line_number (x : Number.t) :
  Kind.single_line (Number.toString x) = true.
Proof.
  destruct x as [sg|[|]| |[|] m e]; try reflexivity.
  - unfold Number.toString. rewrite single_line_app.
    now rewrite single_line_format_positive.
  - apply single_line_format_positive.
Qed.

Lemma code_hex_char (d : Z) :
  0 <= d < 16 -> 48 <= Startup.code (Text.hex_char d) <= 102.
Proof.
  intro Hd. unfold Text.hex_char, Startup.code.
  destruct (d <? 10); rewrite nat_ascii_embedding by lia; lia.
Qed.

Lemma single_line_escape_char (c : ascii) :
  Kind.single_line (JSON.escape_char c) = true.
Proof.
  unfold JSON.escape_char. fold (Startup.code c).
  assert (Hc : 0 <= Startup.code c) by (unfold Startup.code; lia).
  decide_tests; try reflexivity.
  - rewrite single_line_app.
    pose proof (code_hex_char (Startup.code c / 16)
                  ltac:(split; [apply Z.div_pos; lia
                               |apply Z.div_lt_upper_bound; lia])).
    pose proof (code_hex_char (Startup.code c mod 16)
                  ltac:(apply Z.mod_pos_bound; lia)).
    rewrite (single_line_cons (Text.hex_char (Startup.code c / 16)));
      [reflexivity|lia|lia|].
    apply single_line_cons; [lia|lia|reflexivity].
  - apply single_line_cons; [lia|lia|reflexivity].
Qed.

Lemma single_line_escape (s : string) :
  Kind.single_line (JSON.escape s) = true.
Proof.
  induction s as [|c s IH]; [reflexivity|].
  cbn [JSON.escape]. now rewrite single_line_app, single_line_escape_char.
Qed.

Lemma single_line_quote (s : string) :
  Kind.single_line (JSON.quote s) = true.
Proof.
  unfold JSON.quote. now rewrite !single_line_app, single_line_escape.
Qed.

Lemma single_line_join (sep : string) (parts : list string) :
  Kind.single_line sep = true ->
  Forall (fun p => Kind.single_line p = true) parts ->
  Kind.single_line (Text.join sep parts) = true.
Proof.
  intros Hsep Hall. induction Hall as [|p rest Hp Hrest IH];
    [reflexivity|].
  cbn [Text.join]. destruct rest as [|q rest']; [exact Hp|].
  now rewrite !single_line_app, Hp, Hsep, IH.
Qed.

(** No JSON text holds a line break: [JSON.stringify] writes the line
    feeds and carriage returns of a string as [\n] and [\r]. *)
Lemma stringify_single_line (v : JsValue) (s : string) :
  JSON.stringify v = Some s -> Kind.single_line s = true.
Proof.
  revert s. induction v as [| |b|n|t|elems Hall|props Hall]
    using JsValue_nested_ind; intros s Hs; cbn [JSON.stringify] in Hs.
  - discriminate.
  - inversion Hs; reflexivity.
  - destruct b; inversion Hs; reflexivity.
  - inversion Hs; subst. destruct (Number.is_finite n);
      [apply single_line_number|reflexivity].
  - inversion Hs; subst. apply single_line_quote.
  - inversion Hs; subst; clear Hs.
    apply single_line_cons; [discriminate|discriminate|].
    rewrite !single_line_app.
    rewrite single_line_join; [reflexivity|reflexivity|].
    induction Hall as [|x rest Hx Hrest IH]; constructor.
    + destruct (JSON.stringify x) as [sx|]; [now apply Hx|reflexivity].
    + exact IH.
  - inversion Hs; subst; clear Hs.
    apply single_line_cons; [discriminate|discriminate|].
    rewrite !single_line_app.
    rewrite single_line_join; [reflexivity|reflexivity|].
    induction Hall as [|[k x] rest Hx Hrest IH]; [constructor|].
    cbn [snd] in Hx. destruct (JSON.stringify x) as [sx|].
    + constructor; [|exact IH].
      apply single_line_cons; [discriminate|discriminate|].
      rewrite !single_line_app, single_line_escape.
      rewrite (single_line_cons ":"%char sx);
        [reflexivity|discriminate|discriminate|apply (Hx sx eq_refl)].
    + exact IH.
Qed.

(** X16: the JSON text of any value holds no line feed and no carriage
    return.  So every data frame of the event stream is one [data:] line
    followed by an empty line, whatever the message, and for every body
    that [express.json()] lets through, the JSON text the POST routes
    answer with is one line. *)
Theorem json_on_the_wire_is_one_line (msg body : JsValue) (now : Z) :
  let nl := String "010"%char EmptyString in
  Kind.single_line (JSON.stringify_text msg) = true
  /\ Sse.data_frame msg = "data: " ++ JSON.stringify_text msg ++ nl ++ nl
  /\ Kind.single_line ("data: " ++ JSON.stringify_text msg) = true
  /\ (Routes.parsed_body body = true ->
      Kind.single_line (wire_body (post_sse now body)) = true
      /\ Kind.single_line (wire_body (post_mcp now body)) = true).
Proof.
  intro nl.
  assert (Htext : forall v, Kind.single_line (JSON.stringify_text v) = true).
  { intro v. unfold JSON.stringify_text.
    destruct (JSON.stringify v) as [s|] eqn:E;
      [now apply (stringify_single_line v)|reflexivity]. }
  split; [apply Htext|]. split; [reflexivity|].
  split; [now rewrite single_line_app, Htext|].
  intros _. split; apply Htext.
Qed.

Lemma json_of_a_listing_is_one_line :
  Kind.single_line
    (wire_body (post_sse 0 (JObj [("method", JStr "tools/list")]))) = true.
Proof.
  pose proof (json_on_the_wire_is_one_line JNull
                (JObj [("method", JStr "tools/list")]) 0) as H.
  cbv zeta in H. destruct H as (_ & _ & _ & Hpost).
  exact (proj1 (Hpost eq_refl)).
Defined.

(** ** More on the tool branches *)

(** X17: [hello] and [echo] print whatever value they are given, not only
    strings: the text holds the string conversion of [arguments.name]
    (of [arguments.message]), be it a number, a boolean, [null] or an
    array; the call throws only when that conversion throws, and then a
    [TypeError]. *)
Theorem hello_and_echo_print_any_value (now : Z) (request : JsValue) :
  Js.field request "method" = JStr "tools/call" ->
  Js.nullish (Js.field request "params") = false ->
  let name := Js.field (Js.field request "params") "name" in
  let args := Js.field (Js.field request "params") "arguments" in
  Js.nullish args = false ->
  (name = JStr "hello" ->
     (forall t, Js.ToString (Js.field args "name") = Normal t ->
        handleToolCall now request
        = Normal (JObj [("content",
      JArr [JObj [("type", JStr "text");
                  ("text",
                     JStr ("Hello, " ++ t
                             ++ "! Welcome to the simple MCP server."))]])]))
     /\ (forall e, Js.ToString (Js.field args "name") = Throw e ->
           handleToolCall now request = Throw e /\ is_TypeError e))
  /\ (name = JStr "echo" ->
        (forall t, Js.ToString (Js.field args "message") = Normal t ->
           handleToolCall now request
           = Normal (JObj [("content",
      JArr [JObj [("type", JStr "text");
                  ("text", JStr ("Echo: " ++ t))]])]))
        /\ (forall e, Js.ToString (Js.field args "message") = Throw e ->
              handleToolCall now request = Throw e /\ is_TypeError e)).
Proof.
  intros Hmethod Hparams name args Hargs.
  split; intro Hname; split.
  - intros t Ht. enter_call Hmethod Hparams. fold name. rewrite Hname.
    simpl Js.strict_eq_string. cbv iota. unfold Js.member. fold args.
    rewrite Hargs. cbn [bind]. rewrite Ht. reflexivity.
  - intros e He. split; [|now apply (ToString_throws_TypeError _ _ He)].
    enter_call Hmethod Hparams. fold name. rewrite Hname.
    simpl Js.strict_eq_string. cbv iota. unfold Js.member. fold args.
    rewrite Hargs. cbn [bind]. rewrite He. reflexivity.
  - intros t Ht. enter_call Hmethod Hparams. fold name. rewrite Hname.
    simpl Js.strict_eq_string. cbv iota. unfold Js.member. fold args.
    rewrite Hargs. cbn [bind]. rewrite Ht. reflexivity.
  - intros e He. split; [|now apply (ToString_throws_TypeError _ _ He)].
    enter_call Hmethod Hparams. fold name. rewrite Hname.
    simpl Js.strict_eq_string. cbv iota. unfold Js.member. fold args.
    rewrite Hargs. cbn [bind]. rewrite He. reflexivity.
Qed.

Lemma hello_greets_a_number :
  handleToolCall 0
    (call_request (JStr "hello") (JObj [("name", JNum (Number.of_Z 42))]))
  = Normal (JObj [("content",
      JArr [JObj [("type", JStr "text");
                  ("text",
                     JStr
                       "Hello, 42! Welcome to the simple MCP server.")]])]).
Proof.
  exact (proj1 (proj1 (hello_and_echo_print_any_value 0
                  (call_request (JStr "hello")
                     (JObj [("name", JNum (Number.of_Z 42))]))
                  eq_refl eq_refl eq_refl) eq_refl) "42" eq_refl).
Defined.

Lemma in_below (n : nat) (a : Z) :
  0 <= a < Z.of_nat n -> In a (Kind.below n).
Proof.
  intro Ha. unfold Kind.below.
  replace a with (Z.of_nat (Z.to_nat a)) by lia.
  apply in_map, in_seq. lia.
Qed.

Lemma small_integers_checked :
  forallb (fun a => String.eqb (Number.toString (Number.of_Z a))
                               (Text.decimal a))
          (Kind.below 100) = true.
Proof. vm_compute. reflexivity. Qed.

Lemma small_sums_checked :
  forallb (fun a =>
             forallb (fun b =>
                        String.eqb
                          (Number.toString
                             (Number.add (Number.of_Z a) (Number.of_Z b)))
                          (Text.decimal (a + b)))
                     (Kind.below 100))
          (Kind.below 100) = true.
Proof. vm_compute. reflexivity. Qed.

Lemma small_integer_prints (a : Z) :
  0 <= a < 100 -> Number.toString (Number.of_Z a) = Text.decimal a.
Proof.
  intro Ha. apply String.eqb_eq.
  apply (proj1 (forallb_forall _ _) small_integers_checked a).
  apply in_below. lia.
Qed.

Lemma small_sum_prints (a b : Z) :
  0 <= a < 100 -> 0 <= b < 100 ->
  Number.toString (Number.add (Number.of_Z a) (Number.of_Z b))
  = Text.decimal (a + b).
Proof.
  intros Ha Hb. apply String.eqb_eq.
  pose proof (proj1 (forallb_forall _ _) small_sums_checked a
                (in_below 100 a ltac:(lia))) as Hrow.
  cbv beta in Hrow.
  apply (proj1 (forallb_forall _ _) Hrow b).
  apply in_below. lia.
Qed.

(** The text of [add_numbers] on two numbers. *)
Lemma add_numbers_on_numbers (now : Z) (request : JsValue)
  (x y : Number.t) :
  Js.field request "method" = JStr "tools/call" ->
  Js.field (Js.field request "params") "name" = JStr "add_numbers" ->
  Js.field (Js.field (Js.field request "params") "arguments") "a" = JNum x ->
  Js.field (Js.field (Js.field request "params") "arguments") "b" = JNum y ->
  handleToolCall now request
    = Normal (text_content
        (Number.toString x ++ " + " ++ Number.toString y ++ " = "
           ++ Number.toString (Number.add x y))).
Proof.
  intros Hmethod Hname Hx Hy.
  pose proof (field_string_not_nullish _ _ _ Hname) as Hparams.
  pose proof (field_number_not_nullish _ _ _ Hx) as Hargs.
  enter_call Hmethod Hparams.
  rewrite Hname. simpl Js.strict_eq_string. cbv iota.
  unfold Js.member. rewrite Hargs. cbn [bind]. rewrite Hx, Hy.
  reflexivity.
Qed.

(** X18: on the integers from 0 to 99 [add_numbers] is integer addition:
    for numbers that are such integers [a] and [b], the text is the
    decimal writing of [a], of [b] and of the integer [a + b]. *)
Theorem add_numbers_adds_small_integers (now : Z) (request : JsValue)
  (a b : Z) :
  Js.field request "method" = JStr "tools/call" ->
  Js.field (Js.field request "params") "name" = JStr "add_numbers" ->
  0 <= a < 100 -> 0 <= b < 100 ->
  Js.field (Js.field (Js.field request "params") "arguments") "a"
    = JNum (Number.of_Z a) ->
  Js.field (Js.field (Js.field request "params") "arguments") "b"
    = JNum (Number.of_Z b) ->
  handleToolCall now request
    = Normal (JObj [("content",
      JArr [JObj [("type", JStr "text");
                  ("text",
                     JStr (Text.decimal a ++ " + " ++ Text.decimal b
                             ++ " = " ++ Text.decimal (a + b)))]])]).
Proof.
  intros Hmethod Hname Ha Hb Hfa Hfb.
  rewrite (add_numbers_on_numbers now request _ _ Hmethod Hname Hfa Hfb).
  rewrite (small_integer_prints a Ha), (small_integer_prints b Hb),
    (small_sum_prints a b Ha Hb).
  reflexivity.
Qed.

Lemma add_numbers_adds_17_and_25 :
  handleToolCall 0
    (call_request (JStr "add_numbers")
       (JObj [("a", JNum (Number.of_Z 17)); ("b", JNum (Number.of_Z 25))]))
  = Normal (JObj [("content",
      JArr [JObj [("type", JStr "text");
                  ("text", JStr "17 + 25 = 42")]])]).
Proof.
  exact (add_numbers_adds_small_integers 0
           (call_request (JStr "add_numbers")
              (JObj [("a", JNum (Number.of_Z 17));
                     ("b", JNum (Number.of_Z 25))]))
           17 25 eq_refl eq_refl ltac:(lia) ltac:(lia) eq_refl eq_refl).
Defined.
